(** * check_load: threshold parsing, load evaluation and process ranking

    A shallow embedding of [plugins/check_load.c].  The C library and the
    build configuration the plugin is compiled against are an interface
    ([Platform]); the plugin's own functions are written over it, with the
    names they have in the source.  Two concrete platforms run the
    definitions on sample command lines: one over the rationals
    ([QPlatform]), where the arithmetic is exact, and one over IEEE binary64
    ([F64Platform]), where it rounds as the C [double] does. *)

From Stdlib Require Import ZArith QArith Qreduction List String Ascii Bool Lia Permutation.
From Stdlib Require Import Sorted.
From Stdlib Require PrimFloat SpecFloat FloatOps FloatAxioms.
Import ListNotations.

Local Open Scope list_scope.
Local Open Scope string_scope.
Local Open Scope Z_scope.

(** ** Exit codes *)

(** Modelled from the spec: the [STATE_] constants of [common.h], which is
    not among the sources; the exit codes are 0 = OK, 1 = WARNING,
    2 = CRITICAL, 3 = UNKNOWN.  [OK] and [ERROR] are the two answers of the
    argument helpers, told apart by [main]. *)
Definition STATE_OK : Z := 0.
Definition STATE_WARNING : Z := 1.
Definition STATE_CRITICAL : Z := 2.
Definition STATE_UNKNOWN : Z := 3.
Definition OK : Z := 0.
Definition ERROR : Z := -1.

(** ** The platform: C [double], libc and the configure-time switches *)

Class Platform (double : Type) : Type := {
  (** the operations the plugin uses on the C type [double] *)
  d_zero : double;                          (* the literal 0.0 *)
  d_lt : double -> double -> bool;          (* a < b *)
  d_le : double -> double -> bool;          (* a <= b *)
  d_div : double -> double -> double;       (* a / b *)
  d_of_long : Z -> double;                  (* (double) n, for a long n *)
  (** [strtod (str, &p)]: the converted value and [p - str]; no conversion
      is value 0.0 with [p == str] *)
  strtod : string -> double * nat;
  atoi : string -> Z;
  (** [qsort] of an array of rows with a comparison function *)
  qsort : (string -> string -> Z) -> list string -> list string;
  (** [sscanf (row, PS_FORMAT, PS_VARLIST)], as far as [procpcpu] goes *)
  sscanf_procpcpu : string -> double;
  (** configure-time switch for the sort in the process listing *)
  PS_USES_PROCPCPU : bool
}.

(** [a > b] on doubles *)
Definition d_gt {double : Type} `{Platform double} (a b : double) : bool := d_lt b a.

(** ** Arrays of three values: [double th[3]] *)

Record arr3 (A : Type) : Type := Arr3 { a0 : A; a1 : A; a2 : A }.
Arguments Arr3 {A} _ _ _.
Arguments a0 {A} _.
Arguments a1 {A} _.
Arguments a2 {A} _.

(** [th[i]]; the source only reads indices below 3 *)
Definition aget {A} (th : arr3 A) (i : nat) : A :=
  match i with
  | O => a0 th
  | S O => a1 th
  | _ => a2 th
  end.

(** [th[i] = v]; the source only writes indices below 3 *)
Definition aset {A} (th : arr3 A) (i : nat) (v : A) : arr3 A :=
  match i with
  | O => Arr3 v (a1 th) (a2 th)
  | S O => Arr3 (a0 th) v (a2 th)
  | S (S O) => Arr3 (a0 th) (a1 th) v
  | _ => th
  end.

(** strictly for pretty-print usage in loops *)
Definition nums : arr3 Z := Arr3 1 5 15.

(** ** What a run can be observed to do *)

Section Events.
Context {double : Type}.

(** One entry of the performance data: label index, value, and the warning
    and critical thresholds when they are printed. *)
Inductive perfdata : Type :=
| Perf_load (num : Z) (la : double) (thresholds : option (double * double))
| Perf_scaled_load (num : Z) (la wl cl : double).

(** What is printed, by the statement that prints it. *)
Inductive line : Type :=
| Usage (msg : string)                 (* usage (msg) *)
| Usage4 (msg : string)                (* usage4 (msg) *)
| Usage5                               (* usage5 () *)
| Revision                             (* print_revision *)
| Help                                 (* print_help *)
| Die (msg : string) (num : Z)         (* die (STATE_UNKNOWN, msg, nums[i]) *)
| Error_getloadavg                     (* "Error in getloadavg()" *)
| Status_line (result : Z) (scaled_la : option (arr3 double)) (la : arr3 double)
                                       (* "LOAD %s - %s|" *)
| Perf (p : perfdata)
| Newline
| Proc_row (row : string)              (* one row of the process listing *)
| Ps_nonzero                           (* "'%s' exited with non-zero status." *)
| Ps_no_list.                          (* "some error occurred getting procs list." *)

Inductive event : Type :=
| Call_getloadavg
| Call_get_number_of_cpus
| Call_np_runcmd
| Stdout (l : line)
| Stderr (l : line).

(** A computation either goes on with a value or has left the process with
    an exit code; either way it has a trace of events. *)
Inductive outcome (A : Type) : Type :=
| Return (a : A)
| Exit (code : Z).

Definition M (A : Type) : Type := (list event * outcome A)%type.

Definition ret {A} (a : A) : M A := ([], Return A a).

Definition bind {A B} (m : M A) (f : A -> M B) : M B :=
  match m with
  | (t, Return _ a) => let (t', o) := f a in ((t ++ t')%list, o)
  | (t, Exit _ c) => (t, Exit B c)
  end.

Definition emit (e : event) : M unit := ([e], Return unit tt).

Definition exit {A} (code : Z) : M A := ([], Exit A code).

Definition trace {A} (m : M A) : list event := fst m.
Definition final {A} (m : M A) : outcome A := snd m.
End Events.

(** the type of doubles is written out on the types of events and
    computations *)
Arguments perfdata : clear implicits.
Arguments line : clear implicits.
Arguments event : clear implicits.
Arguments M : clear implicits.

Arguments Return {A} a.
Arguments Exit {A} code.

Notation "x <- m ;; k" := (bind m (fun x => k))
  (at level 61, m at next level, right associativity).
Notation "m ;;; k" := (bind m (fun _ => k))
  (at level 61, right associativity).
Notation "' pat <- m ;; k" := (bind m (fun x => match x with pat => k end))
  (at level 61, pat pattern, m at next level, right associativity).

(** ** Helpers of the plugin library *)

Section Utils.
Context {double : Type}.

(** Modelled from the spec: [usage] of [utils.c], which is not among the
    sources; a malformed threshold is fatal, with exit UNKNOWN and no output
    other than a diagnostic message. *)
Definition usage {A} (msg : string) : M double A :=
  emit (Stdout (Usage msg)) ;;; exit STATE_UNKNOWN.

(** Modelled from the spec: [usage4] of [utils.c]; unparsable arguments end
    the run with a usage message and exit UNKNOWN. *)
Definition usage4 {A} (msg : string) : M double A :=
  emit (Stdout (Usage4 msg)) ;;; exit STATE_UNKNOWN.

(** Modelled from the spec: [usage5] of [utils.c]; as [usage4], without a
    message of its own. *)
Definition usage5 {A} : M double A :=
  emit (Stdout Usage5) ;;; exit STATE_UNKNOWN.

(** Modelled from the spec: [die] of [utils.c]; it prints the formatted
    message and leaves the process with its first argument as exit code. *)
Definition die {A} (code : Z) (msg : string) (num : Z) : M double A :=
  emit (Stdout (Die msg num)) ;;; exit code.
End Utils.

(** ** ThresholdParser: [get_threshold] *)

(** [arg + k], for an offset [k] inside the string *)
Fixpoint string_from (k : nat) (s : string) : string :=
  match k, s with
  | O, _ => s
  | S k', String _ s' => string_from k' s'
  | S _, EmptyString => EmptyString
  end.

Section Threshold.
Context {double : Type} `{!Platform double}.

(** The [for (i = 0; i < 3; i++)] loop of [get_threshold]; [k] counts the
    iterations left (3 - i), [str] is the offset [str - arg].  The result
    is the value of [i] after the loop, [valid], and the array. *)
Fixpoint threshold_scan (k i : nat) (arg : string) (n str : nat)
         (valid : bool) (th : arr3 double) : nat * bool * arr3 double :=
  match k with
  | O => (i, valid, th)
  | S k' =>
      let (v, len) := strtod (string_from str arg) in
      let th := aset th i v in                       (* th[i] = strtod (str, &p) *)
      if Nat.eqb len 0 then (i, valid, th)           (* if (p == str) break *)
      else
        let str := (str + len + 1)%nat in            (* str = p + 1 *)
        if (n <=? str)%nat then (i, true, th)        (* if (n <= str - arg) break *)
        else threshold_scan k' (S i) arg n str true th
  end.

(** [for (n = i; n < 3; n++) th[n] = th[i]]; [k] counts the iterations left *)
Fixpoint threshold_fill (k n i : nat) (th : arr3 double) : arr3 double :=
  match k with
  | O => th
  | S k' => threshold_fill k' (S n) i (aset th n (aget th i))
  end.

Definition get_threshold (arg : string) (th : arr3 double) : M double (arr3 double) :=
  let n := String.length arg in
  let '(i, valid, th) := threshold_scan 3 0 arg n 0 false th in
  if Nat.eqb i 0 && negb valid
  then usage "Warning threshold must be float or float triplet!"
  else if negb (Nat.eqb i 2)
       then ret (threshold_fill (3 - i) i i th)
       else ret th.
End Threshold.

(** ** Process-wide configuration and the inputs of a run *)

Section Program.
Context {double : Type} `{!Platform double}.

(** The file-scope variables [n_procs_to_show], [wload], [cload] and
    [take_into_account_cpus]. *)
Record globals : Type := Globals {
  n_procs_to_show : Z;
  wload : arr3 double;
  cload : arr3 double;
  take_into_account_cpus : bool
}.

(** Their initialisers: "provide some fairly sane defaults". *)
Definition static_init : globals :=
  {| n_procs_to_show := 0;
     wload := Arr3 d_zero d_zero d_zero;
     cload := Arr3 d_zero d_zero d_zero;
     take_into_account_cpus := false |}.

Definition set_wload (g : globals) (th : arr3 double) : globals :=
  Globals (n_procs_to_show g) th (cload g) (take_into_account_cpus g).
Definition set_cload (g : globals) (th : arr3 double) : globals :=
  Globals (n_procs_to_show g) (wload g) th (take_into_account_cpus g).
Definition set_take_into_account_cpus (g : globals) (b : bool) : globals :=
  Globals (n_procs_to_show g) (wload g) (cload g) b.
Definition set_n_procs_to_show (g : globals) (n : Z) : globals :=
  Globals n (wload g) (cload g) (take_into_account_cpus g).

(** The command line as [process_arguments] sees it (after
    [np_extra_opts]): [argc], [argv], and what the option parser of the C
    library answers: the successive return values of [getopt_long] with
    their [optarg] up to the final -1, and [optind] at that point. *)
Record cmdline : Type := Cmdline {
  argc : Z;
  argv : list string;
  getopt_long : list (ascii * string);
  optind : Z
}.

(** The system as [main] sees it, in the build with [HAVE_GETLOADAVG]: what
    [getloadavg (la, 3)] returns and leaves in [la], what
    [GET_NUMBER_OF_CPUS ()] returns, and what [np_runcmd (PS_COMMAND, ...)]
    returns and leaves in [chld_out] (its lines, in order). *)
Record env : Type := Env {
  getloadavg : Z * arr3 double;
  GET_NUMBER_OF_CPUS : Z;
  np_runcmd : Z * list string
}.

(** *** [validate_arguments] *)

Definition when (b : bool) (m : M double unit) : M double unit := if b then m else ret tt.

(** The [for (i = 0; i < 3; i++)] loop, [k] iterations left.  (The
    quotation marks inside the third message are written as apostrophes.) *)
Fixpoint validate_loop (k i : nat) (g : globals) : M double unit :=
  match k with
  | O => ret tt
  | S k' =>
      when (d_lt (aget (cload g) i) d_zero)
           (die STATE_UNKNOWN
                "Critical threshold for %d-minute load average is not specified"
                (aget nums i)) ;;;
      when (d_lt (aget (wload g) i) d_zero)
           (die STATE_UNKNOWN
                "Warning threshold for %d-minute load average is not specified"
                (aget nums i)) ;;;
      when (d_gt (aget (wload g) i) (aget (cload g) i))
           (die STATE_UNKNOWN
                "Parameter inconsistency: %d-minute 'warning load' is greater than 'critical load'"
                (aget nums i)) ;;;
      validate_loop k' (S i) g
  end.

Definition validate_arguments (g : globals) : M double Z :=
  validate_loop 3 0 g ;;; ret OK.

(** *** [process_arguments] *)

(** One turn of the [switch (c)]. *)
Definition process_option (c : ascii) (optarg : string) (g : globals) : M double globals :=
  match c with
  | "w"%char => th <- get_threshold optarg (wload g) ;; ret (set_wload g th)
  | "c"%char => th <- get_threshold optarg (cload g) ;; ret (set_cload g th)
  | "r"%char => ret (set_take_into_account_cpus g true)
  | "V"%char => emit (Stdout Revision) ;;; exit STATE_UNKNOWN
  | "h"%char => emit (Stdout Help) ;;; exit STATE_UNKNOWN
  | "n"%char => ret (set_n_procs_to_show g (atoi optarg))
  | "?"%char => usage5
  | _ => ret g
  end.

(** The [while (1)] loop around [getopt_long]; the end of the list is the
    answer -1. *)
Fixpoint process_options (opts : list (ascii * string)) (g : globals) : M double globals :=
  match opts with
  | [] => ret g
  | (c, optarg) :: opts' =>
      g' <- process_option c optarg g ;; process_options opts' g'
  end.

(** [argv[c]] *)
Definition arg_at (cl : cmdline) (c : Z) : string :=
  nth (Z.to_nat c) (argv cl) "".

Definition process_arguments (cl : cmdline) (g : globals) : M double (Z * globals) :=
  if argc cl <? 2 then ret (ERROR, g)
  else
    g <- process_options (getopt_long cl) g ;;
    let c := optind cl in
    if c =? argc cl then (r <- validate_arguments g ;; ret (r, g))
    else
      g <- (if c - argc cl =? 2 then
              w <- get_threshold (arg_at cl c) (wload g) ;;
              let g := set_wload g w in
              cr <- get_threshold (arg_at cl (c + 1)) (cload g) ;;
              ret (set_cload g cr)
            else if c - argc cl =? 1 then
              cr <- get_threshold (arg_at cl c) (cload g) ;;
              ret (set_cload g cr)
            else ret g) ;;
      r <- validate_arguments g ;; ret (r, g).
End Program.

Arguments globals : clear implicits.
Arguments env : clear implicits.

(** ** LoadEvaluator, ProcessRanker and [main] *)

Section Main.
Context {double : Type} `{!Platform double}.

(** The first [for (i = 0; i < 3; i++)] loop of [main], [k] iterations
    left.  The result is [result] and the value of [i] after the loop. *)
Fixpoint evaluate_loop (k i : nat) (is_using_scaled_load_values : bool)
         (scaled_la la : arr3 double) (g : globals double) (result : Z) : Z * nat :=
  match k with
  | O => (result, i)
  | S k' =>
      if is_using_scaled_load_values then
        if d_gt (aget scaled_la i) (aget (cload g) i)
        then (STATE_CRITICAL, i)                               (* break *)
        else if d_gt (aget scaled_la i) (aget (wload g) i)
             then evaluate_loop k' (S i) is_using_scaled_load_values
                                scaled_la la g STATE_WARNING
             else evaluate_loop k' (S i) is_using_scaled_load_values
                                scaled_la la g result
      else
        if d_gt (aget la i) (aget (cload g) i)
        then (STATE_CRITICAL, i)                               (* break *)
        else if d_gt (aget la i) (aget (wload g) i)
             then evaluate_loop k' (S i) is_using_scaled_load_values
                                scaled_la la g STATE_WARNING
             else evaluate_loop k' (S i) is_using_scaled_load_values
                                scaled_la la g result
  end.

(** [scaled_la[i] = la[i] / numcpus] for the three windows; without scaling
    the array keeps its initialiser *)
Definition scale (la : arr3 double) (numcpus : Z) : arr3 double :=
  Arr3 (d_div (a0 la) (d_of_long numcpus))
       (d_div (a1 la) (d_of_long numcpus))
       (d_div (a2 la) (d_of_long numcpus)).

Definition unscaled : arr3 double := Arr3 d_zero d_zero d_zero.

(** The second [for] loop of [main]: the performance data, [k] iterations
    left. *)
Fixpoint perfdata_loop (k i : nat) (is_using_scaled_load_values : bool)
         (scaled_la la : arr3 double) (g : globals double) : M double unit :=
  match k with
  | O => ret tt
  | S k' =>
      (if is_using_scaled_load_values then
         emit (Stdout (Perf (Perf_load (aget nums i) (aget la i) None))) ;;;
         emit (Stdout (Perf (Perf_scaled_load (aget nums i) (aget scaled_la i)
                                              (aget (wload g) i) (aget (cload g) i))))
       else
         emit (Stdout (Perf (Perf_load (aget nums i) (aget la i)
                                       (Some (aget (wload g) i, aget (cload g) i)))))) ;;;
      perfdata_loop k' (S i) is_using_scaled_load_values scaled_la la g
  end.

(** *** [cmpstringp] and [print_top_consuming_processes] *)

Definition cmpstringp (p1 p2 : string) : Z :=
  let procpcpu1 := sscanf_procpcpu p1 in
  let procpcpu := sscanf_procpcpu p2 in
  if d_lt procpcpu1 procpcpu then 1 else 0.

(** [int] and [size_t] as the integers they hold *)
Definition INT_MAX : Z := 2147483647.
Definition to_int (z : Z) : Z := (z + 2 ^ 31) mod 2 ^ 32 - 2 ^ 31.
Definition to_size_t (z : Z) : Z := z mod 2 ^ 64.

(** [qsort (chld_out.line + 1, chld_out.lines - 1, ...)]: the rows after
    the first are sorted in place. *)
Definition sort_rows (line : list string) : list string :=
  match line with
  | [] => []
  | header :: rows => header :: qsort cmpstringp rows
  end.

(** [for (i = 0; i < lines_to_show; i += 1) printf ("%s\n", line[i])],
    [k] iterations left *)
Fixpoint print_rows (k i : nat) (line : list string) : M double unit :=
  match k with
  | O => ret tt
  | S k' => emit (Stdout (Proc_row (nth i line ""))) ;;; print_rows k' (S i) line
  end.

Definition print_top_consuming_processes (g : globals double) (e : env double) : M double Z :=
  emit Call_np_runcmd ;;;
  let (status, line) := np_runcmd e in
  if negb (status =? 0) then
    emit (Stderr Ps_nonzero) ;;; ret STATE_UNKNOWN
  else
    let lines := Z.of_nat (List.length line) in
    if lines <? 2 then
      emit (Stderr Ps_no_list) ;;; ret STATE_UNKNOWN
    else
      let line := if PS_USES_PROCPCPU then sort_rows line else line in
      let lines_to_show :=
        if lines <? to_size_t (to_int (n_procs_to_show g + 1))
        then to_int lines
        else to_int (n_procs_to_show g + 1) in
      print_rows (Z.to_nat lines_to_show) 0 line ;;; ret OK.

(** *** [main] *)

Definition main (cl : cmdline) (e : env double) : M double Z :=
  '(r, g) <- process_arguments cl static_init ;;
  when (r =? ERROR) (usage4 "Could not parse arguments") ;;;
  emit Call_getloadavg ;;;
  let (result, la) := getloadavg e in
  if negb (result =? 3) then ret STATE_UNKNOWN
  else if d_lt (aget la 0) d_zero || d_lt (aget la 1) d_zero || d_lt (aget la 2) d_zero
  then emit (Stdout Error_getloadavg) ;;; ret STATE_UNKNOWN
  else
    (* we got this far, so assume OK until we've measured *)
    let result := STATE_OK in
    '(is_using_scaled_load_values, scaled_la) <-
      (if take_into_account_cpus g then
         emit Call_get_number_of_cpus ;;;
         let numcpus := GET_NUMBER_OF_CPUS e in
         if numcpus >? 0 then ret (true, scale la numcpus)
         else ret (false, unscaled)
       else ret (false, unscaled)) ;;
    let (result, _) :=
      evaluate_loop 3 0 is_using_scaled_load_values scaled_la la g result in
    emit (Stdout (Status_line result
                    (if is_using_scaled_load_values then Some scaled_la else None)
                    la)) ;;;
    perfdata_loop 3 0 is_using_scaled_load_values scaled_la la g ;;;
    emit (Stdout Newline) ;;;
    when (n_procs_to_show g >? 0)
         (print_top_consuming_processes g e ;;; ret tt) ;;;
    ret result.

(** The exit status of the process: the value [main] returns, or the code
    of the [exit] that ended it. *)
Definition exit_status (m : M double Z) : Z :=
  match final m with
  | Return r => r
  | Exit code => code
  end.
End Main.

(** ** Assumptions on the platform that some properties need *)

(** Comparison and division by a positive count behave as on an ordered
    field: [<] is asymmetric, [<] followed by [<=] is [<], and dividing both
    sides of [<=] by the same positive count keeps [<=]. *)
Class OrderedDouble {double : Type} `{Platform double} : Prop := {
  d_lt_asym : forall a b : double,
    d_lt a b = true -> d_lt b a = false;
  d_lt_le_trans : forall a b c : double,
    d_lt a b = true -> d_le b c = true -> d_lt a c = true;
  d_div_le_mono : forall (a b : double) (n : Z),
    0 < n -> d_le a b = true ->
    d_le (d_div a (d_of_long n)) (d_div b (d_of_long n)) = true
}.

(** [qsort] rearranges the rows it is given. *)
Class QsortPermutes {double : Type} `{Platform double} : Prop :=
  qsort_perm : forall cmp rows, Permutation (qsort cmp rows) rows.

(** ** A concrete platform over the rationals

    Doubles are exact rationals; [strtod] reads decimal numbers (blanks,
    sign, digits, fraction, exponent); [qsort] is an insertion sort; the
    process rows carry their CPU usage in the sixth column. *)

Module QModel.

Definition isspace (c : ascii) : bool :=
  let n := nat_of_ascii c in
  (Nat.eqb n 32 || (Nat.leb 9 n && Nat.leb n 13))%bool.

Definition digit_of (c : ascii) : option Z :=
  let n := nat_of_ascii c in
  if (Nat.leb 48 n && Nat.leb n 57)%bool then Some (Z.of_nat (n - 48)) else None.

(** blanks skipped, and the rest *)
Fixpoint skip_space (s : string) : nat * string :=
  match s with
  | String c r =>
      if isspace c then let (k, r') := skip_space r in (S k, r') else (O, s)
  | EmptyString => (O, s)
  end.

(** an optional sign: negative?, characters taken, and the rest *)
Definition sign (s : string) : bool * nat * string :=
  match s with
  | String "-"%char r => (true, 1%nat, r)
  | String "+"%char r => (false, 1%nat, r)
  | _ => (false, O, s)
  end.

(** a run of digits continuing the number [acc]: the number, the digits
    taken, and the rest *)
Fixpoint digits (s : string) (acc : Z) : Z * nat * string :=
  match s with
  | String c r =>
      match digit_of c with
      | Some d => let '(v, k, r') := digits r (10 * acc + d) in (v, S k, r')
      | None => (acc, O, s)
      end
  | EmptyString => (acc, O, s)
  end.

(** an optional exponent, taken only with at least one digit: its value
    and the characters taken *)
Definition exponent (s : string) : Z * nat :=
  match s with
  | String c r =>
      if (Ascii.eqb c "e" || Ascii.eqb c "E")%bool then
        let '(neg, ks, r1) := sign r in
        let '(v, kd, _) := digits r1 0 in
        if Nat.eqb kd 0 then (0, O)
        else (if neg then - v else v, (1 + ks + kd)%nat)
      else (0, O)
  | EmptyString => (0, O)
  end.

Definition strtod (s : string) : Q * nat :=
  let (kw, s1) := skip_space s in
  let '(neg, ks, s2) := sign s1 in
  let '(ip, ki, s3) := digits s2 0 in
  let '(m, kf, kdot, s4) :=
    match s3 with
    | String "."%char r => let '(m, kf, r') := digits r ip in (m, kf, 1%nat, r')
    | _ => (ip, O, O, s3)
    end in
  if Nat.eqb (ki + kf) 0 then (0%Q, O)
  else
    let (ex, ke) := exponent s4 in
    let m := if neg then - m else m in
    (Qred (inject_Z m * Qpower (10 # 1) (ex - Z.of_nat kf)),
     (kw + ks + ki + kdot + kf + ke)%nat).

Definition atoi (s : string) : Z :=
  let (_, s1) := skip_space s in
  let '(neg, _, s2) := sign s1 in
  let '(v, _, _) := digits s2 0 in
  if neg then - v else v.

(** insertion of a row before the first row it does not compare above *)
Fixpoint insert (cmp : string -> string -> Z) (x : string) (l : list string)
  : list string :=
  match l with
  | [] => [x]
  | y :: l' => if cmp x y <=? 0 then x :: l else y :: insert cmp x l'
  end.

Fixpoint qsort (cmp : string -> string -> Z) (l : list string) : list string :=
  match l with
  | [] => []
  | x :: l' => insert cmp x (qsort cmp l')
  end.

(** the text after [k] blank-separated columns *)
Fixpoint skip_columns (k : nat) (s : string) : string :=
  match k with
  | O => s
  | S k' =>
      let '(_, s1) := skip_space s in
      (fix word (s : string) : string :=
         match s with
         | String c r => if isspace c then skip_columns k' s else word r
         | EmptyString => EmptyString
         end) s1
  end.

Definition sscanf_procpcpu (row : string) : Q :=
  fst (strtod (skip_columns 5 row)).

Definition d_lt (a b : Q) : bool := negb (Qle_bool b a).

End QModel.

#[export] Instance QPlatform : Platform Q := {|
  d_zero := 0%Q;
  d_lt := QModel.d_lt;
  d_le := Qle_bool;
  d_div := Qdiv;
  d_of_long := inject_Z;
  strtod := QModel.strtod;
  atoi := QModel.atoi;
  qsort := QModel.qsort;
  sscanf_procpcpu := QModel.sscanf_procpcpu;
  PS_USES_PROCPCPU := true
|}.

(** ** A concrete platform over IEEE binary64

    Doubles are binary64 numbers with the comparisons and the division of
    the processor, rounding to nearest, ties to even: a quotient below the
    smallest subnormal rounds to zero, and a comparison with a NaN is
    false.  [strtod] scans decimal numbers as [QModel.strtod] does and
    rounds the decimal once; the CPU usage of a process row is read into a
    C [float], a binary32 number.  [atoi] and [qsort] are those of the
    rational platform. *)

Module F64Model.
Import PrimFloat SpecFloat FloatOps.

(** [(double) n]: the integer rounded to the nearest double *)
Definition d_of_long (n : Z) : float :=
  SF2Prim (binary_normalize prec emax n 0 false).

(** The number [m * 10 ^ k], negated when [neg], rounded to the format of
    precision [prec] and exponent bound [emax]; it is -0 for a negated
    [m] = 0. *)
Definition decimal (prec emax : Z) (neg : bool) (m k : Z) : spec_float :=
  match m with
  | Zpos p =>
      if 0 <=? k
      then binary_normalize prec emax (if neg then - (m * 10 ^ k) else m * 10 ^ k)
                            0 false
      else SFdiv prec emax (S754_finite neg p 0)
                 (S754_finite false (Z.to_pos (10 ^ (- k))) 0)
  | _ => S754_zero neg
  end.

(** A decimal number at the start of the string: its sign, digits and
    power of ten, and the characters taken; no number is no character
    taken. *)
Definition scan_decimal (s : string) : option (bool * Z * Z) * nat :=
  let (kw, s1) := QModel.skip_space s in
  let '(neg, ks, s2) := QModel.sign s1 in
  let '(ip, ki, s3) := QModel.digits s2 0 in
  let '(m, kf, kdot, s4) :=
    match s3 with
    | String "."%char r =>
        let '(m, kf, r') := QModel.digits r ip in (m, kf, 1%nat, r')
    | _ => (ip, O, O, s3)
    end in
  if Nat.eqb (ki + kf) 0 then (None, O)
  else
    let (ex, ke) := QModel.exponent s4 in
    (Some (neg, m, ex - Z.of_nat kf), (kw + ks + ki + kdot + kf + ke)%nat).

Definition strtod (s : string) : float * nat :=
  match scan_decimal s with
  | (Some (neg, m, k), n) => (SF2Prim (decimal prec emax neg m k), n)
  | (None, _) => (zero, O)
  end.

(** [float procpcpu]: the sixth column rounded to binary32, 0 when it is
    not a number *)
Definition sscanf_procpcpu (row : string) : float :=
  match scan_decimal (QModel.skip_columns 5 row) with
  | (Some (neg, m, k), _) => SF2Prim (decimal 24 128 neg m k)
  | (None, _) => zero
  end.

End F64Model.

#[export] Instance F64Platform : Platform PrimFloat.float | 10 := {|
  d_zero := PrimFloat.zero;
  d_lt := PrimFloat.ltb;
  d_le := PrimFloat.leb;
  d_div := PrimFloat.div;
  d_of_long := F64Model.d_of_long;
  strtod := F64Model.strtod;
  atoi := QModel.atoi;
  qsort := QModel.qsort;
  sscanf_procpcpu := F64Model.sscanf_procpcpu;
  PS_USES_PROCPCPU := true
|}.

(** ** Vocabulary of the properties *)

Section Vocabulary.
Context {double : Type} `{!Platform double}.

(** A field [x] is a parseable number of value [v] when [strtod], reading
    [x] followed by the end of the string or by a comma and more text,
    converts exactly the characters of [x] to [v]. *)
Definition number_field (x : string) (v : double) : Prop :=
  (0 < String.length x)%nat /\
  forall rest, rest = "" \/ (exists r, rest = String "," r) ->
               strtod (x ++ rest) = (v, String.length x).

(** the sample the thresholds are compared with *)
Definition comparison (is_using_scaled_load_values : bool)
           (scaled_la la : arr3 double) : arr3 double :=
  if is_using_scaled_load_values then scaled_la else la.

(** window [i] of the sample is strictly above threshold [i] *)
Definition exceeds (sample th : arr3 double) (i : nat) : bool :=
  d_gt (aget sample i) (aget th i).

Definition some_exceeds (sample th : arr3 double) : bool :=
  exceeds sample th 0 || exceeds sample th 1 || exceeds sample th 2.

Definition any_negative (la : arr3 double) : bool :=
  d_lt (aget la 0) d_zero || d_lt (aget la 1) d_zero || d_lt (aget la 2) d_zero.

(** the option [c] is among those [getopt_long] hands out *)
Definition has_option (c : ascii) (cl : cmdline) : bool :=
  existsb (fun o => Ascii.eqb (fst o) c) (getopt_long cl).

(** whether [main] scales, and the scaled sample it then compares *)
Definition scaled_mode (g : globals double) (e : env double) : bool :=
  take_into_account_cpus g && (GET_NUMBER_OF_CPUS e >? 0).

Definition scaled_sample (g : globals double) (e : env double)
           (la : arr3 double) : arr3 double :=
  if scaled_mode g e then scale la (GET_NUMBER_OF_CPUS e) else unscaled.

(** the status the evaluation loop of [main] computes for a load sample *)
Definition load_status (g : globals double) (e : env double) (la : arr3 double) : Z :=
  fst (evaluate_loop 3 0 (scaled_mode g e) (scaled_sample g e la) la g STATE_OK).

(** what [validate_arguments] rejects in window [i] *)
Definition rejected (g : globals double) (i : nat) : bool :=
  d_lt (aget (cload g) i) d_zero
  || d_lt (aget (wload g) i) d_zero
  || d_gt (aget (wload g) i) (aget (cload g) i).

(** the messages of the argument helpers: usage texts, version, help and
    the fatal diagnostics of [die] *)
Definition is_diagnostic (ev : event double) : bool :=
  match ev with
  | Stdout (Usage _) | Stdout (Usage4 _) | Stdout Usage5
  | Stdout Revision | Stdout Help | Stdout (Die _ _) => true
  | _ => false
  end.

(** the status line and the performance data *)
Definition is_report (ev : event double) : bool :=
  match ev with
  | Stdout (Status_line _ _ _) | Stdout (Perf _) => true
  | _ => false
  end.

(** A computation of the argument stage: it prints diagnostics only, and
    when it leaves the process the exit code is UNKNOWN. *)
Definition argument_stage {A} (m : M double A) : Prop :=
  forallb is_diagnostic (trace m) = true /\
  forall code, final m = Exit code -> code = STATE_UNKNOWN.

(** the listing as it stands when its rows are printed *)
Definition ranked (line : list string) : list string :=
  if PS_USES_PROCPCPU then sort_rows line else line.

(** the rows of the process listing found in a trace, in order *)
Definition rows_printed (t : list (event double)) : list string :=
  flat_map (fun ev => match ev with
                      | Stdout (Proc_row row) => [row]
                      | _ => []
                      end) t.
End Vocabulary.

(** ** Sample command lines and systems, on the rational platform *)

Module Samples.
(** [check_load -w 1 -c 2] *)
Definition cl_w1_c2 : cmdline :=
  Cmdline 5 ["check_load"; "-w"; "1"; "-c"; "2"]
          [("w"%char, "1"); ("c"%char, "2")] 5.
Definition g_w1_c2 : globals Q :=
  Globals 0 (Arr3 1%Q 1%Q 1%Q) (Arr3 2%Q 2%Q 2%Q) false.

(** a process listing: header and four rows, CPU usage in column six *)
Definition listing : list string :=
  ["UID PID PPID VSZ RSS %CPU STAT COMMAND";
   "0 11 1 100 10 1.0 S init";
   "0 12 1 100 10 9.5 R cc1";
   "0 13 1 100 10 3.0 S sshd";
   "0 14 1 100 10 0.5 S cron"].

(** load 2.5, 2.0, 1.5 on four CPUs *)
Definition env_load (la : arr3 Q) (ps : Z * list string) : env Q :=
  Env (3, la) 4 ps.
Definition la_high : arr3 Q := Arr3 (5 # 2)%Q 2%Q (3 # 2)%Q.
Definition la_at_warning : arr3 Q := Arr3 1%Q 1%Q 1%Q.
Definition la_at_critical : arr3 Q := Arr3 2%Q 2%Q 2%Q.
Definition la_low : arr3 Q := Arr3 (1 # 2)%Q (2 # 5)%Q (3 # 10)%Q.
Definition la_failed : arr3 Q := Arr3 (-1)%Q (-1)%Q (-1)%Q.

(** [check_load -r] and [check_load -r -n 3] *)
Definition cl_r : cmdline :=
  Cmdline 2 ["check_load"; "-r"] [("r"%char, "")] 2.
Definition cl_r_n3 : cmdline :=
  Cmdline 4 ["check_load"; "-r"; "-n"; "3"] [("r"%char, ""); ("n"%char, "3")] 4.
(** [check_load -c 5] *)
Definition cl_c5 : cmdline :=
  Cmdline 3 ["check_load"; "-c"; "5"] [("c"%char, "5")] 3.
(** [check_load 1,2,3 4,5,6]: no option, so [getopt_long] answers -1 at
    once and leaves [optind] at the first positional argument *)
Definition cl_positional : cmdline :=
  Cmdline 3 ["check_load"; "1,2,3"; "4,5,6"] [] 1.
(** [check_load -w 1 -c 2 -n 3] *)
Definition cl_w1_c2_n3 : cmdline :=
  Cmdline 7 ["check_load"; "-w"; "1"; "-c"; "2"; "-n"; "3"]
          [("w"%char, "1"); ("c"%char, "2"); ("n"%char, "3")] 7.
Definition g_w1_c2_n3 : globals Q :=
  Globals 3 (Arr3 1%Q 1%Q 1%Q) (Arr3 2%Q 2%Q 2%Q) false.
End Samples.

(** ** Vocabulary of the further properties *)

Section MoreVocabulary.
Context {double : Type} `{!Platform double}.

(** [strtod], reading the field [x] followed by [rest], converts exactly
    the characters of [x] to [v] *)
Definition field_before (x : string) (v : double) (rest : string) : Prop :=
  (0 < String.length x)%nat /\ strtod (x ++ rest) = (v, String.length x).

(** window [i] is the first one that [validate_arguments] rejects *)
Definition first_rejected (g : globals double) (i : nat) : Prop :=
  rejected g i = true /\ forall j, (j < i)%nat -> rejected g j = false.

(** the message of the first of the three tests that window [i] fails *)
Definition diagnostic_of (g : globals double) (i : nat) : string :=
  if d_lt (aget (cload g) i) d_zero
  then "Critical threshold for %d-minute load average is not specified"
  else if d_lt (aget (wload g) i) d_zero
       then "Warning threshold for %d-minute load average is not specified"
       else "Parameter inconsistency: %d-minute 'warning load' is greater than 'critical load'".

(** the statuses shown by the status lines of a trace, in order *)
Definition status_lines (t : list (event double)) : list Z :=
  flat_map (fun ev => match ev with
                      | Stdout (Status_line result _ _) => [result]
                      | _ => []
                      end) t.

(** the entries of performance data of a trace, in order *)
Definition perf_entries (t : list (event double)) : list (perfdata double) :=
  flat_map (fun ev => match ev with
                      | Stdout (Perf p) => [p]
                      | _ => []
                      end) t.

(** the calls of the system found in a trace, in order *)
Definition is_call (ev : event double) : bool :=
  match ev with
  | Call_getloadavg | Call_get_number_of_cpus | Call_np_runcmd => true
  | _ => false
  end.

Definition calls (t : list (event double)) : list (event double) :=
  filter is_call t.

(** row [a] does not use less CPU than row [b] *)
Definition cpu_not_below (a b : string) : Prop :=
  d_lt (sscanf_procpcpu a) (sscanf_procpcpu b) = false.

(** the events of the listing step after its call of [np_runcmd] *)
Definition is_listing_output (ev : event double) : bool :=
  match ev with
  | Stderr _ | Stdout (Proc_row _) => true
  | _ => false
  end.

(** The five ways a run can go. *)
Inductive run : cmdline -> env double -> M double Z -> Prop :=
| Run_fatal_arguments cl e t code :
    process_arguments cl static_init = (t, Exit code) ->
    run cl e (t, Exit STATE_UNKNOWN)
| Run_no_arguments cl e t g :
    process_arguments cl static_init = (t, Return (ERROR, g)) ->
    run cl e ((t ++ [Stdout (Usage4 "Could not parse arguments")])%list,
              Exit STATE_UNKNOWN)
| Run_no_load cl e t g res la :
    process_arguments cl static_init = (t, Return (OK, g)) ->
    getloadavg e = (res, la) -> res <> 3 ->
    run cl e ((t ++ [Call_getloadavg])%list, Return STATE_UNKNOWN)
| Run_negative_load cl e t g la :
    process_arguments cl static_init = (t, Return (OK, g)) ->
    getloadavg e = (3, la) -> any_negative la = true ->
    run cl e ((t ++ [Call_getloadavg; Stdout Error_getloadavg])%list,
              Return STATE_UNKNOWN)
| Run_checked cl e t g la :
    process_arguments cl static_init = (t, Return (OK, g)) ->
    getloadavg e = (3, la) -> any_negative la = false ->
    run cl e
        ((t ++ [Call_getloadavg]
            ++ (if take_into_account_cpus g then [Call_get_number_of_cpus] else [])
            ++ [Stdout (Status_line (load_status g e la)
                          (if scaled_mode g e then Some (scaled_sample g e la) else None)
                          la)]
            ++ trace (perfdata_loop 3 0 (scaled_mode g e) (scaled_sample g e la) la g)
            ++ [Stdout Newline]
            ++ (if n_procs_to_show g >? 0
                then trace (print_top_consuming_processes g e) else []))%list,
         Return (load_status g e la)).
End MoreVocabulary.

(** [qsort] with [cmpstringp] leaves no row before one that the comparison
    puts in front of it. *)
Class QsortSorts {double : Type} `{Platform double} : Prop :=
  qsort_sorted : forall rows,
    StronglySorted (fun a b => cmpstringp a b <= 0) (qsort cmpstringp rows).

Module MoreSamples.
(** [check_load -w 1,5,1 -c 2]: the warning threshold of the 5-minute window
    is above its critical threshold *)
Definition g_inverted_5 : globals Q :=
  Globals 0 (Arr3 1%Q 5%Q 1%Q) (Arr3 2%Q 2%Q 2%Q) false.

(** [check_load -r -w 1 -c 2] on a system that reports no CPU *)
Definition cl_r_w1_c2 : cmdline :=
  Cmdline 6 ["check_load"; "-r"; "-w"; "1"; "-c"; "2"]
          [("r"%char, ""); ("w"%char, "1"); ("c"%char, "2")] 6.
Definition g_r_w1_c2 : globals Q :=
  Globals 0 (Arr3 1%Q 1%Q 1%Q) (Arr3 2%Q 2%Q 2%Q) true.
Definition env_no_cpu : env Q :=
  Env (3, Samples.la_high) 0 (0, []).

(** [check_load -r -h -w 1] *)
Definition cl_r_h : cmdline :=
  Cmdline 5 ["check_load"; "-r"; "-h"; "-w"; "1"]
          [("r"%char, ""); ("h"%char, ""); ("w"%char, "1")] 5.
End MoreSamples.

(** ** Sample systems on the binary64 platform *)

Module F64Samples.
Import PrimFloat.
(** the smallest positive double, 2^-1074, in all three windows, on four
    CPUs *)
Definition la_tiny : arr3 float :=
  Arr3 0x1p-1074%float 0x1p-1074%float 0x1p-1074%float.
Definition env_tiny : env float := Env (3, la_tiny) 4 (0, []).

(** load 0.5, 0.25, 0.125 on four CPUs *)
Definition la_half : arr3 float := Arr3 0.5%float 0.25%float 0.125%float.
Definition env_half : env float := Env (3, la_half) 4 (0, Samples.listing).
End F64Samples.

(** case analysis on every comparison of doubles left in the goal *)
Ltac case_ifs :=
  repeat match goal with
         | |- context [d_gt ?a ?b] => destruct (d_gt a b)
         | |- context [d_lt ?a ?b] => destruct (d_lt a b)
         end;
  try reflexivity.

(** * Properties *)

(** ** Strings and offsets *)

Lemma append_empty_r (s : string) : s ++ "" = s.
Proof. induction s as [|c s IH]; simpl; [reflexivity | now rewrite IH]. Qed.

Lemma length_append (s t : string) :
  String.length (s ++ t) = (String.length s + String.length t)%nat.
Proof. induction s as [|c s IH]; simpl; [reflexivity | now rewrite IH]. Qed.

Lemma string_from_past_comma (s t : string) :
  string_from (String.length s + 1) (s ++ String "," t) = t.
Proof.
  induction s as [|c s IH]; simpl; [now destruct t | exact IH].
Qed.

Lemma string_from_add (j k : nat) (s : string) :
  string_from (j + k) s = string_from k (string_from j s).
Proof.
  revert s; induction j as [|j IH]; intros s; simpl; [reflexivity|].
  destruct s as [|c s]; [now destruct k | apply IH].
Qed.

(** ** ThresholdParser *)

Section ThresholdFacts.
Context {double : Type} `{!Platform double}.

(** the three ways one turn of the scanning loop can go *)
Lemma scan_no_conversion k i arg n str valid th v :
  strtod (string_from str arg) = (v, O) ->
  threshold_scan (S k) i arg n str valid th = (i, valid, aset th i v).
Proof. intros E; simpl; rewrite E; reflexivity. Qed.

Lemma scan_last_field k i arg n str valid th v len :
  strtod (string_from str arg) = (v, len) -> len <> O ->
  (n <= str + len + 1)%nat ->
  threshold_scan (S k) i arg n str valid th = (i, true, aset th i v).
Proof.
  intros E Hlen Hn; simpl; rewrite E.
  destruct (Nat.eqb_spec len 0); [contradiction|].
  destruct (Nat.leb_spec n (str + len + 1)); [reflexivity | lia].
Qed.

Lemma scan_next_field k i arg n str valid th v len :
  strtod (string_from str arg) = (v, len) -> len <> O ->
  (str + len + 1 < n)%nat ->
  threshold_scan (S k) i arg n str valid th =
  threshold_scan k (S i) arg n (str + len + 1) true (aset th i v).
Proof.
  intros E Hlen Hn; simpl; rewrite E.
  destruct (Nat.eqb_spec len 0); [contradiction|].
  destruct (Nat.leb_spec n (str + len + 1)); [lia | reflexivity].
Qed.

Lemma number_field_alone x v :
  number_field x v -> strtod x = (v, String.length x).
Proof.
  intros [_ Hx]. rewrite <- (append_empty_r x) at 1. apply Hx; now left.
Qed.

Lemma number_field_comma x v r :
  number_field x v -> strtod (x ++ String "," r) = (v, String.length x).
Proof. intros [_ Hx]. apply Hx; right; now exists r. Qed.

Lemma get_threshold_one x vx th :
  number_field x vx -> get_threshold x th = ret (Arr3 vx vx vx).
Proof.
  intros Hx. pose proof (number_field_alone _ _ Hx) as E.
  destruct Hx as [Hpos _].
  unfold get_threshold.
  rewrite (scan_last_field 2 0 x _ 0 false th vx (String.length x));
    [reflexivity | exact E | lia | lia].
Qed.

Lemma get_threshold_two x y vx vy th :
  number_field x vx -> number_field y vy ->
  get_threshold (x ++ "," ++ y) th = ret (Arr3 vx vy vy).
Proof.
  intros Hx Hy.
  pose proof (number_field_comma _ _ y Hx) as Ex.
  pose proof (number_field_alone _ _ Hy) as Ey.
  destruct Hx as [Hxpos _], Hy as [Hypos _].
  unfold get_threshold. simpl append.
  rewrite (scan_next_field 2 0 _ _ 0 false th vx (String.length x));
    [ | exact Ex | lia | rewrite length_append; simpl; lia ].
  rewrite (scan_last_field 1 1 _ _ _ true _ vy (String.length y));
    [ reflexivity | | lia | rewrite length_append; simpl; lia ].
  simpl Nat.add. rewrite string_from_past_comma. exact Ey.
Qed.

Lemma get_threshold_three x y z vx vy vz th :
  number_field x vx -> number_field y vy -> number_field z vz ->
  get_threshold (x ++ "," ++ y ++ "," ++ z) th = ret (Arr3 vx vy vz).
Proof.
  intros Hx Hy Hz.
  pose proof (number_field_comma _ _ (y ++ String "," z) Hx) as Ex.
  pose proof (number_field_comma _ _ z Hy) as Ey.
  pose proof (number_field_alone _ _ Hz) as Ez.
  destruct Hx as [Hxpos _], Hy as [Hypos _], Hz as [Hzpos _].
  unfold get_threshold. simpl append.
  rewrite (scan_next_field 2 0 _ _ 0 false th vx (String.length x));
    [ | exact Ex | lia | rewrite length_append; simpl; rewrite length_append; simpl; lia ].
  simpl Nat.add.
  rewrite (scan_next_field 1 1 _ _ _ true _ vy (String.length y));
    [ | rewrite string_from_past_comma; exact Ey | lia
      | rewrite length_append; simpl; rewrite length_append; simpl; lia ].
  rewrite (scan_last_field 0 2 _ _ _ true _ vz (String.length z));
    [ reflexivity | | lia
      | rewrite length_append; simpl; rewrite length_append; simpl; lia ].
  replace (String.length x + 1 + String.length y + 1)%nat
    with ((String.length x + 1) + (String.length y + 1))%nat by lia.
  rewrite (string_from_add (String.length x + 1) (String.length y + 1)).
  rewrite !string_from_past_comma.
  exact Ez.
Qed.

Lemma get_threshold_no_number arg th :
  snd (strtod arg) = O ->
  get_threshold arg th =
  ([Stdout (Usage "Warning threshold must be float or float triplet!")],
   Exit STATE_UNKNOWN).
Proof.
  intros E. unfold get_threshold.
  destruct (strtod arg) as [v len] eqn:Es; simpl in E; subst len.
  rewrite (scan_no_conversion 2 0 arg _ 0 false th v Es). reflexivity.
Qed.
End ThresholdFacts.

Section EvaluationFacts.
Context {double : Type} `{!Platform double}.

Lemma some_exceeds_spec sample th :
  some_exceeds sample th = true <->
  exists i, (i < 3)%nat /\ exceeds sample th i = true.
Proof.
  unfold some_exceeds. split.
  - intros E. apply orb_true_iff in E as [E|E];
      [apply orb_true_iff in E as [E|E]|];
      [exists 0%nat | exists 1%nat | exists 2%nat]; (split; [lia | exact E]).
  - intros (i & Hi & E).
    destruct i as [|[|[|i]]]; try lia; rewrite E;
      rewrite ?orb_true_r; reflexivity.
Qed.

Lemma none_exceeds_spec sample th :
  some_exceeds sample th = false <->
  forall i, (i < 3)%nat -> exceeds sample th i = false.
Proof.
  split.
  - intros E i Hi. destruct (exceeds sample th i) eqn:Ei; [|reflexivity].
    rewrite <- E. symmetry. apply some_exceeds_spec. exists i; split; assumption.
  - intros E. unfold some_exceeds. now rewrite !E by lia.
Qed.

(** The loop in closed form. *)
Lemma evaluate_loop_status b scaled_la la g :
  fst (evaluate_loop 3 0 b scaled_la la g STATE_OK) =
  if some_exceeds (comparison b scaled_la la) (cload g) then STATE_CRITICAL
  else if some_exceeds (comparison b scaled_la la) (wload g) then STATE_WARNING
       else STATE_OK.
Proof.
  unfold some_exceeds, exceeds.
  destruct b; cbn; case_ifs.
Qed.

(** The walk stops at the first window above its critical threshold. *)
Lemma evaluate_loop_stops b scaled_la la g i :
  (i < 3)%nat ->
  (forall j, (j < i)%nat -> exceeds (comparison b scaled_la la) (cload g) j = false) ->
  exceeds (comparison b scaled_la la) (cload g) i = true ->
  evaluate_loop 3 0 b scaled_la la g STATE_OK = (STATE_CRITICAL, i).
Proof.
  unfold exceeds. intros Hi Hbefore Hat.
  destruct i as [|[|[|i]]]; try lia.
  - destruct b; cbn in Hat |- *; rewrite Hat; reflexivity.
  - pose proof (Hbefore 0%nat ltac:(lia)) as H0.
    destruct b; cbn in H0, Hat |- *; rewrite H0, Hat; case_ifs.
  - pose proof (Hbefore 0%nat ltac:(lia)) as H0.
    pose proof (Hbefore 1%nat ltac:(lia)) as H1.
    destruct b; cbn in H0, H1, Hat |- *; rewrite H0, H1, Hat; case_ifs.
Qed.

(** Without a window above its critical threshold the walk visits all
    three windows. *)
Lemma evaluate_loop_runs_through b scaled_la la g :
  some_exceeds (comparison b scaled_la la) (cload g) = false ->
  snd (evaluate_loop 3 0 b scaled_la la g STATE_OK) = 3%nat.
Proof.
  intros E. pose proof (proj1 (none_exceeds_spec _ _) E) as N.
  pose proof (N 0%nat ltac:(lia)) as N0.
  pose proof (N 1%nat ltac:(lia)) as N1.
  pose proof (N 2%nat ltac:(lia)) as N2.
  unfold exceeds in *.
  destruct b; cbn in N0, N1, N2 |- *; rewrite N0, N1, N2; case_ifs.
Qed.
End EvaluationFacts.

Section MainFacts.
Context {double : Type} `{!Platform double}.

Lemma bind_return {A B} (t : list (event double)) (a : A) (f : A -> M double B) :
  bind (t, Return a) f = ((t ++ fst (f a))%list, snd (f a)).
Proof. unfold bind. now destruct (f a). Qed.

Lemma print_rows_spec k i line :
  print_rows (double := double) k i line =
  (map (fun row => Stdout (Proc_row row))
       (map (fun j => nth j line "") (seq i k)), Return tt).
Proof.
  revert i; induction k as [|k IH]; intros i; simpl; [reflexivity|].
  rewrite IH. reflexivity.
Qed.

Lemma print_top_returns g e :
  exists z, final (print_top_consuming_processes g e) = Return z.
Proof.
  unfold print_top_consuming_processes, final.
  destruct (np_runcmd e) as [status line].
  destruct (negb (status =? 0)); [now exists STATE_UNKNOWN|].
  destruct (Z.of_nat (List.length line) <? 2); [now exists STATE_UNKNOWN|].
  exists OK. rewrite print_rows_spec. reflexivity.
Qed.

(** The complete run of [main] once the arguments are accepted and a
    valid sample is read. *)
Lemma main_run cl e t r g la :
  process_arguments cl static_init = (t, Return (r, g)) ->
  r <> ERROR ->
  getloadavg e = (3, la) ->
  any_negative la = false ->
  main cl e =
  ((t ++ [Call_getloadavg]
      ++ (if take_into_account_cpus g then [Call_get_number_of_cpus] else [])
      ++ [Stdout (Status_line (load_status g e la)
                    (if scaled_mode g e then Some (scaled_sample g e la) else None)
                    la)]
      ++ trace (perfdata_loop 3 0 (scaled_mode g e) (scaled_sample g e la) la g)
      ++ [Stdout Newline]
      ++ (if n_procs_to_show g >? 0
          then trace (print_top_consuming_processes g e) else []))%list,
   Return (load_status g e la)).
Proof.
  intros Hpa Hr Hla Hneg.
  unfold main, load_status, scaled_sample, scaled_mode.
  rewrite Hpa, bind_return.
  destruct (Z.eqb_spec r ERROR) as [|_]; [contradiction|].
  rewrite Hla. unfold any_negative in Hneg.
  destruct (print_top_returns g e) as [z Hz].
  unfold final in Hz.
  destruct (print_top_consuming_processes g e) as [tt' ot].
  simpl in Hz; subst ot.
  cbn -[evaluate_loop scale Z.gtb aget app].
  rewrite Hneg.
  destruct (take_into_account_cpus g); [destruct (GET_NUMBER_OF_CPUS e >? 0)|];
    cbn -[evaluate_loop scale Z.gtb aget app];
    destruct (evaluate_loop _ _ _ _ _ _ _) as [st i];
    cbn -[scale Z.gtb aget app];
    destruct (n_procs_to_show g >? 0); cbn -[scale aget app];
    rewrite ?app_nil_r; reflexivity.
Qed.

Lemma main_exit_status cl e t r g la :
  process_arguments cl static_init = (t, Return (r, g)) ->
  r <> ERROR ->
  getloadavg e = (3, la) ->
  any_negative la = false ->
  exit_status (main cl e) = load_status g e la.
Proof.
  intros Hpa Hr Hla Hneg.
  now rewrite (main_run cl e t r g la Hpa Hr Hla Hneg).
Qed.
End MainFacts.

Section ArgumentFacts.
Context {double : Type} `{!Platform double}.

Lemma argument_stage_ret {A} (a : A) :
  argument_stage (ret (double := double) a).
Proof. split; [reflexivity | discriminate]. Qed.

Lemma argument_stage_bind {A B} (m : M double A) (f : A -> M double B) :
  argument_stage m -> (forall a, argument_stage (f a)) ->
  argument_stage (bind m f).
Proof.
  unfold argument_stage. destruct m as [t [a|code]]; simpl; intros [Ht Hc] Hf.
  - destruct (Hf a) as [Ht' Hc']. destruct (f a) as [t' o]; simpl in *.
    split; [now rewrite forallb_app, Ht, Ht' | exact Hc'].
  - split; [exact Ht | intros c [= <-]; now apply Hc].
Qed.

Lemma get_threshold_stage arg th : argument_stage (get_threshold arg th).
Proof.
  unfold get_threshold.
  destruct (threshold_scan _ _ _ _ _ _ _) as [[i valid] th'].
  destruct (Nat.eqb i 0 && negb valid).
  - split; [reflexivity | now intros code [= <-]].
  - destruct (negb (Nat.eqb i 2)); apply argument_stage_ret.
Qed.

Lemma process_option_stage c optarg g :
  argument_stage (process_option c optarg g).
Proof.
  unfold process_option.
  destruct c as [[] [] [] [] [] [] [] []];
    try apply argument_stage_ret;
    try (split; [reflexivity | now intros code [= <-]]);
    (apply argument_stage_bind;
     [apply get_threshold_stage | intros; apply argument_stage_ret]).
Qed.

Lemma process_options_stage opts g :
  argument_stage (process_options opts g).
Proof.
  revert g; induction opts as [|[c optarg] opts IH]; intros g; simpl.
  - apply argument_stage_ret.
  - apply argument_stage_bind; [apply process_option_stage | apply IH].
Qed.

Lemma when_die_stage (b : bool) (msg : string) (num : Z) :
  argument_stage (when b (die (double := double) STATE_UNKNOWN msg num)).
Proof.
  destruct b; [|apply argument_stage_ret].
  split; [reflexivity | now intros code [= <-]].
Qed.

Lemma validate_loop_stage k i g : argument_stage (validate_loop k i g).
Proof.
  revert i; induction k as [|k IH]; intros i; [apply argument_stage_ret|].
  simpl validate_loop.
  repeat (apply argument_stage_bind; [apply when_die_stage | intros _]).
  apply IH.
Qed.

Lemma validate_arguments_stage g : argument_stage (validate_arguments g).
Proof.
  unfold validate_arguments.
  apply argument_stage_bind; [apply validate_loop_stage|].
  intros _. apply argument_stage_ret.
Qed.

Lemma process_arguments_stage cl g :
  argument_stage (process_arguments cl g).
Proof.
  assert (Hv : forall g', argument_stage (r <- validate_arguments g' ;; ret (r, g'))).
  { intros g'. apply argument_stage_bind;
      [apply validate_arguments_stage | intros; apply argument_stage_ret]. }
  unfold process_arguments.
  destruct (argc cl <? 2); [apply argument_stage_ret|].
  apply argument_stage_bind; [apply process_options_stage|].
  intros g'. destruct (optind cl =? argc cl); [apply Hv|].
  apply argument_stage_bind; [|intros; apply Hv].
  destruct (optind cl - argc cl =? 2); [|destruct (optind cl - argc cl =? 1)].
  - apply argument_stage_bind; [apply get_threshold_stage|].
    intros w. apply argument_stage_bind;
      [apply get_threshold_stage | intros; apply argument_stage_ret].
  - apply argument_stage_bind;
      [apply get_threshold_stage | intros; apply argument_stage_ret].
  - apply argument_stage_ret.
Qed.

Lemma diagnostic_not_report (t : list (event double)) :
  forallb is_diagnostic t = true ->
  forallb (fun ev => negb (is_report ev)) t = true.
Proof.
  rewrite !forallb_forall. intros Ht ev Hin. specialize (Ht ev Hin).
  destruct ev as [| | |[]|]; try discriminate; reflexivity.
Qed.

Lemma diagnostic_not_getloadavg (t : list (event double)) :
  forallb is_diagnostic t = true -> ~ In Call_getloadavg t.
Proof.
  rewrite forallb_forall. intros Ht Hin. now specialize (Ht _ Hin).
Qed.

End ArgumentFacts.

Section RetrievalFacts.
Context {double : Type} `{!Platform double}.

(** A negative value in the sample read by [getloadavg]: the run ends
    right after the error message. *)
Lemma main_negative_path cl e t r g la :
  process_arguments cl static_init = (t, Return (r, g)) ->
  r <> ERROR ->
  getloadavg e = (3, la) ->
  any_negative la = true ->
  main cl e =
  ((t ++ [Call_getloadavg; Stdout Error_getloadavg])%list, Return STATE_UNKNOWN).
Proof.
  intros Hpa Hr Hla Hneg. unfold main.
  rewrite Hpa, bind_return.
  destruct (Z.eqb_spec r ERROR) as [|_]; [contradiction|].
  rewrite Hla. unfold any_negative in Hneg.
  cbn -[aget app]. rewrite Hneg. reflexivity.
Qed.

Lemma main_negative_unknown cl e :
  any_negative (snd (getloadavg e)) = true ->
  exit_status (main cl e) = STATE_UNKNOWN /\
  forallb (fun ev => negb (is_report ev)) (trace (main cl e)) = true.
Proof.
  intros Hneg.
  destruct (process_arguments_stage cl static_init) as [Ht Hc].
  apply diagnostic_not_report in Ht.
  destruct (process_arguments cl static_init) as [t [[r g]|code]] eqn:Hpa;
    simpl in Ht, Hc.
  - destruct (Z.eq_dec r ERROR) as [->|Hr].
    + unfold main. rewrite Hpa. cbn.
      rewrite forallb_app, Ht. split; reflexivity.
    + destruct (getloadavg e) as [res la] eqn:Hla. simpl in Hneg.
      destruct (Z.eq_dec res 3) as [->|Hres].
      * rewrite (main_negative_path cl e t r g la Hpa Hr Hla Hneg).
        cbn. rewrite forallb_app, Ht. split; reflexivity.
      * unfold main. rewrite Hpa, bind_return.
        destruct (Z.eqb_spec r ERROR) as [|_]; [contradiction|].
        rewrite Hla.
        destruct (Z.eqb_spec res 3) as [|_]; [contradiction|].
        cbn. rewrite forallb_app, Ht. split; reflexivity.
  - unfold main. rewrite Hpa. cbn. split; [now apply Hc | exact Ht].
Qed.

(** An argument stage that leaves the process ends the run before the
    load is read. *)
Lemma main_fatal_arguments cl e t code :
  process_arguments cl static_init = (t, Exit code) ->
  main cl e = (t, Exit STATE_UNKNOWN) /\ ~ In Call_getloadavg t.
Proof.
  intros Hpa.
  destruct (process_arguments_stage cl static_init) as [Ht Hc].
  rewrite Hpa in Ht, Hc. simpl in Ht, Hc.
  rewrite (Hc code eq_refl) in Hpa.
  split; [unfold main; now rewrite Hpa | now apply diagnostic_not_getloadavg].
Qed.

(** Validation stops at the first window it rejects. *)
Lemma validate_loop_rejects k i j g :
  (i <= j < i + k)%nat -> rejected g j = true ->
  exists t, validate_loop k i g = (t, Exit STATE_UNKNOWN).
Proof.
  unfold rejected. revert i; induction k as [|k IH]; intros i Hj Hrej; [lia|].
  simpl validate_loop.
  destruct (d_lt (aget (cload g) i) d_zero) eqn:Ec; [cbn; eauto|].
  destruct (d_lt (aget (wload g) i) d_zero) eqn:Ew; [cbn; eauto|].
  destruct (d_gt (aget (wload g) i) (aget (cload g) i)) eqn:Ei; [cbn; eauto|].
  assert (i <> j) by (intros ->; rewrite Ec, Ew, Ei in Hrej; discriminate).
  destruct (IH (S i) ltac:(lia) Hrej) as [t Et].
  cbn -[validate_loop]. rewrite Et. cbn. eauto.
Qed.

Lemma validate_loop_accepts k i g :
  (forall j, (i <= j < i + k)%nat -> rejected g j = false) ->
  validate_loop k i g = ([], Return tt).
Proof.
  revert i; induction k as [|k IH]; intros i Hok; [reflexivity|].
  pose proof (Hok i ltac:(lia)) as Hi. unfold rejected in Hi.
  apply orb_false_iff in Hi as [Hi Hgt]. apply orb_false_iff in Hi as [Hc Hw].
  simpl validate_loop. rewrite Hc, Hw, Hgt.
  cbn -[validate_loop]. rewrite IH; [reflexivity|].
  intros j Hj. apply Hok. lia.
Qed.

(** [validate_arguments] accepts exactly the thresholds without a negative
    value and without a warning threshold above its critical one. *)
Lemma validate_arguments_accepts g :
  final (validate_arguments g) = Return OK <->
  forall i, (i < 3)%nat -> rejected g i = false.
Proof.
  unfold validate_arguments. split.
  - intros Hfin i Hi. destruct (rejected g i) eqn:Hrej; [|reflexivity].
    destruct (validate_loop_rejects 3 0 i g ltac:(lia) Hrej) as [t Et].
    rewrite Et in Hfin. discriminate.
  - intros Hok. rewrite validate_loop_accepts; [reflexivity|].
    intros j Hj. apply Hok. lia.
Qed.

Lemma validate_arguments_inverted g i :
  (i < 3)%nat -> exceeds (wload g) (cload g) i = true ->
  exists t, validate_arguments g = (t, Exit STATE_UNKNOWN).
Proof.
  intros Hi Hinv. unfold validate_arguments.
  assert (Hrej : rejected g i = true).
  { unfold rejected. unfold exceeds in Hinv. rewrite Hinv. apply orb_true_r. }
  destruct (validate_loop_rejects 3 0 i g ltac:(lia) Hrej) as [t Et].
  rewrite Et. cbn. eauto.
Qed.
End RetrievalFacts.

Section RankingFacts.
Context {double : Type} `{!Platform double}.

Lemma nth_seq_firstn (l : list string) (k : nat) :
  (k <= List.length l)%nat ->
  map (fun j => nth j l "") (seq 0 k) = firstn k l.
Proof.
  revert k; induction l as [|x l IH]; intros k Hk; simpl in Hk.
  - now replace k with O by lia.
  - destruct k as [|k]; [reflexivity|].
    simpl. f_equal. rewrite <- seq_shift, map_map. apply IH. lia.
Qed.

Lemma in_firstn (l : list string) (k : nat) (row : string) :
  In row (firstn k l) -> In row l.
Proof.
  intros Hin. rewrite <- (firstn_skipn k l). apply in_or_app. now left.
Qed.

Lemma rows_printed_rows (l : list string) :
  rows_printed (double := double) (map (fun row => Stdout (Proc_row row)) l) = l.
Proof. induction l as [|x l IH]; simpl; [reflexivity | now rewrite IH]. Qed.

Lemma lines_to_show_min (lines n : Z) :
  0 <= lines -> 0 < n <= INT_MAX -> n < INT_MAX \/ lines <= INT_MAX ->
  (if lines <? to_size_t (to_int (n + 1)) then to_int lines else to_int (n + 1))
  = Z.min lines (n + 1).
Proof.
  unfold INT_MAX, to_size_t, to_int. intros Hl Hn Hor.
  destruct (Z.eq_dec n 2147483647) as [->|Hne].
  - assert (lines <= 2147483647) by lia.
    change ((2147483647 + 1 + 2 ^ 31) mod 2 ^ 32 - 2 ^ 31) with (- 2 ^ 31).
    change ((- 2 ^ 31) mod 2 ^ 64) with (2 ^ 64 - 2 ^ 31).
    destruct (Z.ltb_spec lines (2 ^ 64 - 2 ^ 31)); [|lia].
    rewrite Z.mod_small by lia. lia.
  - rewrite (Z.mod_small (n + 1 + 2 ^ 31)) by lia.
    replace (n + 1 + 2 ^ 31 - 2 ^ 31) with (n + 1) by lia.
    rewrite (Z.mod_small (n + 1)) by lia.
    destruct (Z.ltb_spec lines (n + 1)); [|lia].
    rewrite Z.mod_small by lia. lia.
Qed.

Lemma ranked_length (line : list string) `{!QsortPermutes} :
  List.length (ranked line) = List.length line.
Proof.
  unfold ranked, sort_rows. destruct PS_USES_PROCPCPU; [|reflexivity].
  destruct line as [|header rows]; [reflexivity|].
  simpl. f_equal. apply Permutation_length, qsort_perm.
Qed.

(** The header stays in front; the rows after it are rearranged. *)
Lemma ranked_header (line : list string) `{!QsortPermutes} :
  exists rows, Permutation rows (tl line) /\
               ranked line = match line with [] => [] | header :: _ => header :: rows end.
Proof.
  unfold ranked, sort_rows. destruct line as [|header rows].
  - exists []. split; [constructor | now destruct PS_USES_PROCPCPU].
  - destruct PS_USES_PROCPCPU.
    + exists (qsort cmpstringp rows). split; [apply qsort_perm | reflexivity].
    + exists rows. split; [apply Permutation_refl | reflexivity].
Qed.

(** The successful run of the listing step. *)
Lemma print_top_run g e line `{!QsortPermutes} :
  np_runcmd e = (0, line) ->
  (2 <= List.length line)%nat ->
  0 < n_procs_to_show g <= INT_MAX ->
  n_procs_to_show g < INT_MAX \/ Z.of_nat (List.length line) <= INT_MAX ->
  print_top_consuming_processes g e =
  (Call_np_runcmd ::
     map (fun row => Stdout (Proc_row row))
         (firstn (Nat.min (List.length line) (Z.to_nat (n_procs_to_show g + 1)))
                 (ranked line)),
   Return OK).
Proof.
  intros Hrun Hlen Hn Hor. unfold print_top_consuming_processes.
  rewrite Hrun. change (negb (0 =? 0)) with false. cbv iota.
  destruct (Z.ltb_spec (Z.of_nat (List.length line)) 2) as [|_]; [lia|].
  rewrite lines_to_show_min by (lia || assumption).
  rewrite print_rows_spec.
  replace (Z.to_nat (Z.min (Z.of_nat (List.length line)) (n_procs_to_show g + 1)))
    with (Nat.min (List.length line) (Z.to_nat (n_procs_to_show g + 1))) by lia.
  fold (ranked line).
  pose proof (ranked_length line) as Hranked.
  rewrite nth_seq_firstn by lia.
  cbn. now rewrite app_nil_r.
Qed.

(** The failing runs of the listing step. *)
Lemma print_top_failure g e :
  fst (np_runcmd e) <> 0 \/ (List.length (snd (np_runcmd e)) < 2)%nat ->
  exists diag, (diag = Ps_nonzero \/ diag = Ps_no_list) /\
    print_top_consuming_processes g e =
    ([Call_np_runcmd; Stderr diag], Return STATE_UNKNOWN).
Proof.
  unfold print_top_consuming_processes.
  destruct (np_runcmd e) as [status line]; simpl.
  destruct (Z.eqb_spec status 0) as [->|Hs]; simpl.
  - intros [Hs|Hl]; [contradiction|].
    destruct (Z.ltb_spec (Z.of_nat (List.length line)) 2); [|lia].
    exists Ps_no_list. split; [now right | reflexivity].
  - intros _. exists Ps_nonzero. split; [now left | reflexivity].
Qed.
End RankingFacts.

(** ** The rational platform satisfies the assumptions *)

Lemma Q_d_lt_iff (a b : Q) : QModel.d_lt a b = true <-> (a < b)%Q.
Proof.
  unfold QModel.d_lt. rewrite negb_true_iff, <- not_true_iff_false, Qle_bool_iff.
  split; [apply Qnot_le_lt | apply Qlt_not_le].
Qed.

#[export] Instance QOrdered : OrderedDouble (double := Q).
Proof.
  split.
  - intros a b Hab. apply Q_d_lt_iff in Hab.
    apply not_true_iff_false. rewrite Q_d_lt_iff.
    intros Hba. exact (Qlt_irrefl a (Qlt_trans _ _ _ Hab Hba)).
  - intros a b c Hab Hbc. apply Q_d_lt_iff in Hab.
    apply Qle_bool_iff in Hbc. apply Q_d_lt_iff.
    exact (Qlt_le_trans _ _ _ Hab Hbc).
  - intros a b n Hn Hab. simpl in *. apply Qle_bool_iff in Hab.
    apply Qle_bool_iff. unfold Qdiv.
    apply Qmult_le_compat_r; [exact Hab|].
    apply Qlt_le_weak, Qinv_lt_0_compat.
    unfold Qlt; simpl; lia.
Qed.

(** [<] on binary64 is asymmetric, NaN included. *)
Lemma F64_d_lt_asym (a b : PrimFloat.float) :
  PrimFloat.ltb a b = true -> PrimFloat.ltb b a = false.
Proof.
  rewrite !FloatAxioms.ltb_spec. unfold SpecFloat.SFltb.
  destruct (FloatOps.Prim2SF a) as [sa|sa| |sa ma ea],
           (FloatOps.Prim2SF b) as [sb|sb| |sb mb eb];
    cbn; try discriminate; try (destruct sa; discriminate || reflexivity);
    try (destruct sb; discriminate || reflexivity);
    try (destruct sa, sb; discriminate || reflexivity).
  destruct sa, sb; try discriminate; try reflexivity;
    change (PosDef.Pos.compare_cont Eq mb ma) with (Pos.compare mb ma);
    change (PosDef.Pos.compare_cont Eq ma mb) with (Pos.compare ma mb);
    rewrite (Z.compare_antisym ea eb), (Pos.compare_antisym ma mb);
    destruct (ea ?= eb)%Z; cbn; try discriminate; try reflexivity;
    destruct (ma ?= mb)%positive; cbn; discriminate || reflexivity.
Qed.

Lemma Q_insert_perm cmp x l : Permutation (QModel.insert cmp x l) (x :: l).
Proof.
  induction l as [|y l IH]; simpl; [apply Permutation_refl|].
  destruct (cmp x y <=? 0); [apply Permutation_refl|].
  apply Permutation_trans with (y :: x :: l); [now constructor | constructor].
Qed.

#[export] Instance QQsortPermutes : QsortPermutes (double := Q).
Proof.
  intros cmp rows. simpl. induction rows as [|x rows IH]; simpl; [constructor|].
  apply Permutation_trans with (x :: QModel.qsort cmp rows);
    [apply Q_insert_perm | now constructor].
Qed.

(** ** C1 *)

(** C1: the evaluation walks the windows in order over the comparison
    sample (the scaled values in scaled mode, the raw values otherwise); the
    first window strictly above its critical threshold makes the status
    CRITICAL and ends the walk there; without such a window the walk visits
    all three.  For a sample without negative value the exit status is
    CRITICAL iff some window exceeds its critical threshold, else WARNING
    iff some window exceeds its warning threshold, else OK.  Equality does
    not escalate; load (2.5, 2.0, 1.5) against warn (1,1,1), crit (2,2,2)
    is CRITICAL. *)
Theorem evaluation_walk_status :
  (forall (double : Type) (P : Platform double) (cl : cmdline) (e : env double)
          (t : list (event double)) (g : globals double) (la : arr3 double),
      process_arguments cl static_init = (t, Return (OK, g)) ->
      getloadavg e = (3, la) ->
      any_negative la = false ->
      let sample := comparison (scaled_mode g e) (scaled_sample g e la) la in
      let walk :=
        evaluate_loop 3 0 (scaled_mode g e) (scaled_sample g e la) la g STATE_OK in
      sample = (if take_into_account_cpus g && (GET_NUMBER_OF_CPUS e >? 0)
                then scale la (GET_NUMBER_OF_CPUS e) else la) /\
      (forall i, (i < 3)%nat ->
                 (forall j, (j < i)%nat -> exceeds sample (cload g) j = false) ->
                 exceeds sample (cload g) i = true ->
                 walk = (STATE_CRITICAL, i)) /\
      ((forall i, (i < 3)%nat -> exceeds sample (cload g) i = false) ->
       snd walk = 3%nat) /\
      exit_status (main cl e) = fst walk /\
      (exit_status (main cl e) = STATE_CRITICAL <->
       exists i, (i < 3)%nat /\ exceeds sample (cload g) i = true) /\
      (exit_status (main cl e) = STATE_WARNING <->
       (forall i, (i < 3)%nat -> exceeds sample (cload g) i = false) /\
       exists i, (i < 3)%nat /\ exceeds sample (wload g) i = true) /\
      (exit_status (main cl e) = STATE_OK <->
       (forall i, (i < 3)%nat -> exceeds sample (cload g) i = false) /\
       (forall i, (i < 3)%nat -> exceeds sample (wload g) i = false))) /\
  exit_status (main Samples.cl_w1_c2 (Samples.env_load Samples.la_high (0, [])))
  = STATE_CRITICAL /\
  exit_status (main Samples.cl_w1_c2 (Samples.env_load Samples.la_at_critical (0, [])))
  = STATE_WARNING /\
  exit_status (main Samples.cl_w1_c2 (Samples.env_load Samples.la_at_warning (0, [])))
  = STATE_OK.
Proof.
  split; [|repeat split; vm_compute; reflexivity].
  intros double P cl e t g la Hpa Hla Hneg sample walk.
  assert (Hr : OK <> ERROR) by discriminate.
  pose proof (main_exit_status cl e t OK g la Hpa Hr Hla Hneg) as Hexit.
  unfold load_status in Hexit. fold walk in Hexit.
  pose proof (evaluate_loop_status (scaled_mode g e) (scaled_sample g e la) la g)
    as Hclosed.
  fold walk sample in Hclosed.
  split; [unfold sample, comparison, scaled_sample, scaled_mode;
          now destruct (take_into_account_cpus g && (GET_NUMBER_OF_CPUS e >? 0))|].
  split; [intros i Hi Hbefore Hat; now apply evaluate_loop_stops|].
  split; [intros Hnone; apply evaluate_loop_runs_through;
          now apply none_exceeds_spec|].
  split; [exact Hexit|].
  rewrite Hexit, Hclosed.
  rewrite <- !some_exceeds_spec, <- !none_exceeds_spec.
  destruct (some_exceeds sample (cload g)), (some_exceeds sample (wload g));
    unfold STATE_CRITICAL, STATE_WARNING, STATE_OK; intuition congruence.
Qed.

Lemma evaluation_walk_status_witness :
  exit_status (main Samples.cl_w1_c2 (Samples.env_load Samples.la_high (0, [])))
  = STATE_CRITICAL.
Proof.
  assert (Hpa : process_arguments Samples.cl_w1_c2 static_init
                = ([], Return (OK, Samples.g_w1_c2))) by reflexivity.
  assert (Hneg : any_negative Samples.la_high = false) by reflexivity.
  destruct (proj1 evaluation_walk_status Q QPlatform Samples.cl_w1_c2
                  (Samples.env_load Samples.la_high (0, [])) []
                  Samples.g_w1_c2 Samples.la_high Hpa eq_refl Hneg)
    as (_ & _ & _ & _ & Hcritical & _).
  apply Hcritical. exists 0%nat. split; [lia | reflexivity].
Defined.

(** ** C2 *)

(** C2: for fields that are parseable numbers, [get_threshold] yields the
    broadcast triplet: "x" gives {x, x, x}, "x,y" gives {x, y, y} and
    "x,y,z" gives {x, y, z}; for an argument whose start [strtod] does not
    convert (the empty string, "abc") it yields no triplet: it leaves
    through [usage] with exit UNKNOWN. *)
Theorem get_threshold_broadcast :
  forall (double : Type) (P : Platform double) (x y z : string)
         (vx vy vz : double) (th : arr3 double),
    number_field x vx -> number_field y vy -> number_field z vz ->
    get_threshold x th = ret (Arr3 vx vx vx) /\
    get_threshold (x ++ "," ++ y) th = ret (Arr3 vx vy vy) /\
    get_threshold (x ++ "," ++ y ++ "," ++ z) th = ret (Arr3 vx vy vz) /\
    (forall arg, snd (strtod arg) = O ->
                 get_threshold arg th =
                 usage "Warning threshold must be float or float triplet!" /\
                 final (get_threshold arg th) = Exit STATE_UNKNOWN).
Proof.
  intros double P x y z vx vy vz th Hx Hy Hz.
  split; [now apply get_threshold_one|].
  split; [now apply get_threshold_two|].
  split; [now apply get_threshold_three|].
  intros arg Harg. rewrite (get_threshold_no_number arg th Harg).
  split; reflexivity.
Qed.

(** "1", "2.5" and "15" are number fields of the rational platform *)
Lemma Q_number_field_1 : number_field "1" 1%Q.
Proof.
  split; [simpl; lia|]. intros rest [->|[r ->]]; reflexivity.
Qed.

Lemma Q_number_field_2_5 : number_field "2.5" (5 # 2)%Q.
Proof.
  split; [simpl; lia|]. intros rest [->|[r ->]]; reflexivity.
Qed.

Lemma Q_number_field_15 : number_field "15" 15%Q.
Proof.
  split; [simpl; lia|]. intros rest [->|[r ->]]; reflexivity.
Qed.

Lemma get_threshold_broadcast_witness :
  let th := Arr3 0%Q 0%Q 0%Q in
  get_threshold "1" th = ret (Arr3 1%Q 1%Q 1%Q) /\
  get_threshold "1,2.5" th = ret (Arr3 1%Q (5 # 2)%Q (5 # 2)%Q) /\
  get_threshold "1,2.5,15" th = ret (Arr3 1%Q (5 # 2)%Q 15%Q) /\
  final (get_threshold "" th) = Exit STATE_UNKNOWN /\
  final (get_threshold "abc" th) = Exit STATE_UNKNOWN.
Proof.
  intros th.
  pose proof (get_threshold_broadcast Q QPlatform "1" "2.5" "15"
                1%Q (5 # 2)%Q 15%Q th
                Q_number_field_1 Q_number_field_2_5 Q_number_field_15)
    as (H1 & H2 & H3 & Hfail).
  split; [exact H1|]. split; [exact H2|]. split; [exact H3|].
  split; [exact (proj2 (Hfail "" eq_refl)) | exact (proj2 (Hfail "abc" eq_refl))].
Defined.

(** ** C3 *)

(** C3 (as the code has it): when the second field has no numeric prefix,
    the remaining windows are filled with the 0.0 that the failed conversion
    stored, not with the last parsed value: "1,abc" gives {1, 0, 0}, and
    "1,2,abc" gives {1, 2, 0}; a field list that ends early, as in "1,",
    does repeat the last value. *)
Theorem get_threshold_failed_field_fills_zero :
  let th := Arr3 0%Q 0%Q 0%Q in
  get_threshold "1,abc" th = ret (Arr3 1%Q 0%Q 0%Q) /\
  get_threshold "1,abc" th <> ret (Arr3 1%Q 1%Q 1%Q) /\
  get_threshold "1,abc" (Arr3 7%Q 8%Q 9%Q) = ret (Arr3 1%Q 0%Q 0%Q) /\
  get_threshold "1,2,abc" th = ret (Arr3 1%Q 2%Q 0%Q) /\
  get_threshold "1," th = ret (Arr3 1%Q 1%Q 1%Q).
Proof.
  repeat split; try (vm_compute; reflexivity).
  vm_compute. discriminate.
Qed.

(** In general: a number field followed by a field that does not convert
    leaves the value of the failed conversion in the last two windows. *)
Lemma get_threshold_second_field_fails {double : Type} `{!Platform double} x vx rest v0 th :
  number_field x vx -> rest <> "" -> strtod rest = (v0, O) ->
  get_threshold (x ++ "," ++ rest) th = ret (Arr3 vx v0 v0).
Proof.
  intros Hx Hrest E0.
  pose proof (number_field_comma _ _ rest Hx) as Ex.
  destruct Hx as [Hxpos _].
  assert (0 < String.length rest)%nat by (destruct rest; [contradiction | simpl; lia]).
  unfold get_threshold. simpl append.
  rewrite (scan_next_field 2 0 _ _ 0 false th vx (String.length x));
    [ | exact Ex | lia | rewrite length_append; simpl; lia ].
  rewrite (scan_no_conversion 1 1 _ _ _ true _ v0); [reflexivity|].
  simpl Nat.add. rewrite string_from_past_comma. exact E0.
Qed.

(** ** C4 *)

(** C4 (as the code has it): with no threshold given at all
    ([check_load -r]) or with the warning thresholds left out
    ([check_load -c 5]) validation passes on the 0.0 defaults, the load is
    read and the run ends with a status of the load check. *)
Theorem unspecified_thresholds_pass_validation :
  let e := Samples.env_load Samples.la_high (0, []) in
  final (process_arguments Samples.cl_r static_init)
  = Return (OK, Globals 0 (Arr3 0%Q 0%Q 0%Q) (Arr3 0%Q 0%Q 0%Q) true) /\
  In Call_getloadavg (trace (main Samples.cl_r e)) /\
  exit_status (main Samples.cl_r e) = STATE_CRITICAL /\
  final (process_arguments Samples.cl_c5 static_init)
  = Return (OK, Globals 0 (Arr3 0%Q 0%Q 0%Q) (Arr3 5%Q 5%Q 5%Q) false) /\
  In Call_getloadavg (trace (main Samples.cl_c5 e)) /\
  exit_status (main Samples.cl_c5 e) = STATE_WARNING.
Proof.
  repeat split; try (vm_compute; reflexivity); vm_compute; tauto.
Qed.

(** The part of C4 that the code does: a warning threshold above its
    critical threshold in any one window ends the run in the argument stage,
    with exit UNKNOWN and before the load is read. *)
Lemma inverted_thresholds_fatal {double : Type} `{!Platform double} cl e t g i :
  2 <= argc cl ->
  process_options (getopt_long cl) static_init = (t, Return g) ->
  optind cl = argc cl ->
  (i < 3)%nat -> exceeds (wload g) (cload g) i = true ->
  exit_status (main cl e) = STATE_UNKNOWN /\
  ~ In Call_getloadavg (trace (main cl e)).
Proof.
  intros Hargc Hopts Hind Hi Hinv.
  destruct (validate_arguments_inverted g i Hi Hinv) as [tv Hv].
  assert (Hpa : process_arguments cl static_init = ((t ++ tv)%list, Exit STATE_UNKNOWN)).
  { unfold process_arguments.
    destruct (Z.ltb_spec (argc cl) 2); [lia|].
    rewrite Hopts, bind_return.
    destruct (Z.eqb_spec (optind cl) (argc cl)); [|contradiction].
    rewrite Hv. reflexivity. }
  destruct (main_fatal_arguments cl e _ _ Hpa) as [Hmain Hno].
  rewrite Hmain. split; [reflexivity | exact Hno].
Qed.

(** ** C5 *)

(** C5 (as the code has it): the tests [c - argc == 2] and [c - argc == 1]
    never hold for an [optind] inside [argv], so positional arguments are
    not read: [check_load 1,2,3 4,5,6] leaves both triplets at their 0.0
    defaults, where [get_threshold] would have stored {1,2,3} and {4,5,6}. *)
Theorem positional_thresholds_not_read :
  process_arguments Samples.cl_positional static_init
  = ([], Return (OK, static_init)) /\
  get_threshold "1,2,3" (wload static_init) = ret (Arr3 1%Q 2%Q 3%Q) /\
  get_threshold "4,5,6" (cload static_init) = ret (Arr3 4%Q 5%Q 6%Q) /\
  process_arguments (Cmdline 2 ["check_load"; "4,5,6"] [] 1) static_init
  = ([], Return (OK, static_init)).
Proof. repeat split; vm_compute; reflexivity. Qed.

(** In general: with [optind <= argc] the positional branch is dead. *)
Lemma positional_branch_dead {double : Type} `{!Platform double} cl g0 :
  optind cl <= argc cl -> 2 <= argc cl ->
  process_arguments cl g0 =
  (g <- process_options (getopt_long cl) g0 ;;
   r <- validate_arguments g ;; ret (r, g)).
Proof.
  intros Hind Hargc. unfold process_arguments.
  destruct (Z.ltb_spec (argc cl) 2); [lia|].
  destruct (process_options (getopt_long cl) g0) as [t [g|code]]; [|reflexivity].
  rewrite !bind_return.
  destruct (Z.eqb_spec (optind cl) (argc cl)); [reflexivity|].
  destruct (Z.eqb_spec (optind cl - argc cl) 2); [lia|].
  destruct (Z.eqb_spec (optind cl - argc cl) 1); [lia|].
  unfold ret at 1. rewrite bind_return. simpl.
  now destruct (r <- validate_arguments g ;; ret (r, g)).
Qed.

(** ** C6 *)

Section Monotonicity.
Context {double : Type} `{!Platform double} `{!OrderedDouble}.

Lemma exceeds_mono (sample sample' th : arr3 double) i :
  d_le (aget sample i) (aget sample' i) = true ->
  exceeds sample th i = true -> exceeds sample' th i = true.
Proof.
  unfold exceeds, d_gt. intros Hle Hgt. exact (d_lt_le_trans _ _ _ Hgt Hle).
Qed.

Lemma some_exceeds_mono (sample sample' th : arr3 double) :
  (forall i, (i < 3)%nat -> d_le (aget sample i) (aget sample' i) = true) ->
  some_exceeds sample th = true -> some_exceeds sample' th = true.
Proof.
  intros Hle Hsome. apply some_exceeds_spec in Hsome as (i & Hi & Hgt).
  apply some_exceeds_spec. exists i. split; [exact Hi|].
  exact (exceeds_mono _ _ _ _ (Hle i Hi) Hgt).
Qed.

Lemma comparison_mono g e e' la la' :
  GET_NUMBER_OF_CPUS e' = GET_NUMBER_OF_CPUS e ->
  (forall i, (i < 3)%nat -> d_le (aget la i) (aget la' i) = true) ->
  forall i, (i < 3)%nat ->
    d_le (aget (comparison (scaled_mode g e) (scaled_sample g e la) la) i)
         (aget (comparison (scaled_mode g e') (scaled_sample g e' la') la') i) = true.
Proof.
  intros Hcpu Hle i Hi. unfold scaled_sample, scaled_mode, comparison.
  rewrite Hcpu.
  destruct (take_into_account_cpus g); simpl; [|now apply Hle].
  destruct (Z.gtb_spec (GET_NUMBER_OF_CPUS e) 0) as [Hpos|_]; [|now apply Hle].
  pose proof (Hle i Hi) as Hi'.
  destruct i as [|[|[|i]]]; try lia; simpl in *;
    now apply d_div_le_mono.
Qed.

Lemma load_status_mono g e e' la la' :
  GET_NUMBER_OF_CPUS e' = GET_NUMBER_OF_CPUS e ->
  (forall i, (i < 3)%nat -> d_le (aget la i) (aget la' i) = true) ->
  load_status g e la <= load_status g e' la'.
Proof.
  intros Hcpu Hle. unfold load_status. rewrite !evaluate_loop_status.
  pose proof (comparison_mono g e e' la la' Hcpu Hle) as Hsample.
  pose proof (some_exceeds_mono _ _ (cload g) Hsample) as Hc.
  pose proof (some_exceeds_mono _ _ (wload g) Hsample) as Hw.
  unfold STATE_CRITICAL, STATE_WARNING, STATE_OK.
  destruct (some_exceeds _ (cload g)); [rewrite Hc by reflexivity; lia|].
  destruct (some_exceeds _ (wload g));
    [rewrite Hw by reflexivity|]; repeat destruct (some_exceeds _ _); lia.
Qed.
End Monotonicity.

(** C6: with the same command line, CPU count and scaling mode, a load
    sample that is at least as high in every window gets a status that is at
    least as high, in the order OK < WARNING < CRITICAL: for the status of
    the evaluation under any thresholds (in particular under
    warn[i] <= crit[i], which the argument stage has enforced when [main]
    evaluates), and so for the exit status of two runs with valid samples. *)
Theorem evaluation_monotonic :
  forall (double : Type) (P : Platform double) (O : OrderedDouble)
         (cl : cmdline) (e e' : env double)
         (la la' : arr3 double),
    getloadavg e = (3, la) -> getloadavg e' = (3, la') ->
    GET_NUMBER_OF_CPUS e' = GET_NUMBER_OF_CPUS e ->
    any_negative la = false -> any_negative la' = false ->
    (forall i, (i < 3)%nat -> d_le (aget la i) (aget la' i) = true) ->
    (forall g, load_status g e la <= load_status g e' la') /\
    exit_status (main cl e) <= exit_status (main cl e').
Proof.
  intros double P O cl e e' la la' Hla Hla' Hcpu Hneg Hneg' Hle.
  split; [intros g; now apply load_status_mono|].
  destruct (process_arguments cl static_init) as [t [[r g]|code]] eqn:Hpa.
  - destruct (Z.eq_dec r ERROR) as [->|Hr].
    + unfold main. rewrite Hpa. cbn. lia.
    + rewrite (main_exit_status cl e t r g la Hpa Hr Hla Hneg).
      rewrite (main_exit_status cl e' t r g la' Hpa Hr Hla' Hneg').
      now apply load_status_mono.
  - unfold main. rewrite Hpa. cbn. lia.
Qed.

Lemma evaluation_monotonic_witness :
  exit_status (main Samples.cl_w1_c2 (Samples.env_load Samples.la_low (0, [])))
  <= exit_status (main Samples.cl_w1_c2 (Samples.env_load Samples.la_high (0, []))).
Proof.
  refine (proj2 (evaluation_monotonic
                   Q QPlatform QOrdered Samples.cl_w1_c2
                   (Samples.env_load Samples.la_low (0, []))
                   (Samples.env_load Samples.la_high (0, []))
                   Samples.la_low Samples.la_high
                   eq_refl eq_refl eq_refl eq_refl eq_refl _)).
  intros i Hi. destruct i as [|[|[|i]]]; [reflexivity | reflexivity | reflexivity | lia].
Defined.

(** ** C7 *)

(** C7: when one of the three raw load values is negative the run ends with
    exit UNKNOWN, and nothing it prints is a status line or performance
    data; whatever thresholds the argument stage accepted, the run is the
    argument stage, the call of [getloadavg] and the error message. *)
Theorem negative_load_unknown :
  forall (double : Type) (P : Platform double) (cl : cmdline) (e : env double),
    any_negative (snd (getloadavg e)) = true ->
    exit_status (main cl e) = STATE_UNKNOWN /\
    forallb (fun ev => negb (is_report ev)) (trace (main cl e)) = true /\
    (forall t g, process_arguments cl static_init = (t, Return (OK, g)) ->
                 fst (getloadavg e) = 3 ->
                 main cl e =
                 ((t ++ [Call_getloadavg; Stdout Error_getloadavg])%list,
                  Return STATE_UNKNOWN)).
Proof.
  intros double P cl e Hneg.
  destruct (main_negative_unknown cl e Hneg) as [Hexit Hquiet].
  split; [exact Hexit|]. split; [exact Hquiet|].
  intros t g Hpa Hres.
  destruct (getloadavg e) as [res la] eqn:Hla. simpl in Hneg, Hres. subst res.
  apply (main_negative_path cl e t OK g la Hpa); [discriminate | exact Hla | exact Hneg].
Qed.

Lemma negative_load_unknown_witness :
  exit_status (main Samples.cl_w1_c2 (Samples.env_load Samples.la_failed (0, [])))
  = STATE_UNKNOWN.
Proof.
  exact (proj1 (negative_load_unknown
                  Q QPlatform Samples.cl_w1_c2
                  (Samples.env_load Samples.la_failed (0, [])) eq_refl)).
Defined.

(** ** C8 *)

(** C8: for a listing of at least two lines and a positive count topN, the
    ranking step prints exactly min (lines, topN + 1) lines; the first one
    is the header, which is counted in that number and keeps its place in
    front of the rearranged rows; every printed line is a row of the
    listing; without the CPU column the listing is printed in its order.
    (topN is an [int]: should it be INT_MAX, topN + 1 wraps and the listing
    has to fit an [int] itself.) *)
Theorem ranking_prints_header_and_top :
  forall (double : Type) (P : Platform double) (QP : QsortPermutes)
         (g : globals double) (e : env double)
         (listing : list string),
    np_runcmd e = (0, listing) ->
    (2 <= List.length listing)%nat ->
    0 < n_procs_to_show g <= INT_MAX ->
    n_procs_to_show g < INT_MAX \/ Z.of_nat (List.length listing) <= INT_MAX ->
    let printed := rows_printed (trace (print_top_consuming_processes g e)) in
    List.length printed
    = Nat.min (List.length listing) (Z.to_nat (n_procs_to_show g + 1)) /\
    hd_error printed = hd_error listing /\
    (exists rows, Permutation rows (tl listing) /\
                  printed = firstn (List.length printed) (hd "" listing :: rows)) /\
    (forall row, In row printed -> In row listing) /\
    (PS_USES_PROCPCPU = false ->
     printed = firstn (List.length printed) listing) /\
    final (print_top_consuming_processes g e) = Return OK.
Proof.
  intros double P QP g e listing Hrun Hlen Hn Hor printed.
  pose proof (print_top_run g e listing Hrun Hlen Hn Hor) as Hp.
  assert (Hprinted :
            printed = firstn (Nat.min (List.length listing)
                                      (Z.to_nat (n_procs_to_show g + 1)))
                             (ranked listing)).
  { unfold printed. rewrite Hp. unfold trace. simpl fst.
    change (rows_printed (Call_np_runcmd :: ?l)) with (rows_printed l).
    apply rows_printed_rows. }
  pose proof (ranked_length listing) as Hrl.
  assert (Hcount : List.length printed
                   = Nat.min (List.length listing)
                             (Z.to_nat (n_procs_to_show g + 1))).
  { rewrite Hprinted, length_firstn. lia. }
  destruct (ranked_header listing) as (rows & Hperm & Hranked).
  destruct listing as [|header tail]; [simpl in Hlen; lia|].
  simpl tl in Hperm. simpl hd.
  split; [exact Hcount|].
  split.
  { rewrite Hprinted, Hranked.
    destruct (Nat.min _ _) eqn:Hmin; [lia | reflexivity]. }
  split.
  { exists rows. split; [exact Hperm|].
    rewrite Hcount. rewrite Hprinted at 1. now rewrite Hranked. }
  split.
  { intros row Hin. rewrite Hprinted, Hranked in Hin.
    apply in_firstn in Hin. destruct Hin as [<-|Hin]; [now left|].
    right. exact (Permutation_in _ Hperm Hin). }
  split.
  { intros Hflag. rewrite Hcount. rewrite Hprinted at 1.
    unfold ranked. now rewrite Hflag. }
  rewrite Hp. reflexivity.
Qed.

Lemma ranking_prints_header_and_top_witness :
  rows_printed
    (trace (print_top_consuming_processes
              Samples.g_w1_c2_n3
              (Samples.env_load Samples.la_high (0, Samples.listing))))
  = ["UID PID PPID VSZ RSS %CPU STAT COMMAND";
     "0 12 1 100 10 9.5 R cc1";
     "0 13 1 100 10 3.0 S sshd";
     "0 11 1 100 10 1.0 S init"] /\
  List.length
    (rows_printed
       (trace (print_top_consuming_processes
                 Samples.g_w1_c2_n3
                 (Samples.env_load Samples.la_high (0, Samples.listing)))))
  = Nat.min 5 4.
Proof.
  split; [reflexivity|].
  refine (proj1 (ranking_prints_header_and_top
                   Q QPlatform QQsortPermutes Samples.g_w1_c2_n3
                   (Samples.env_load Samples.la_high (0, Samples.listing))
                   Samples.listing eq_refl _ _ _)).
  - simpl; lia.
  - unfold INT_MAX; simpl; lia.
  - left; unfold INT_MAX; simpl; lia.
Defined.

(** ** C9 *)

(** C9: when the listing command exits non-zero, or gives fewer than two
    lines, the listing step writes one diagnostic to the error stream and
    returns UNKNOWN to [main], which goes on to return the status of the
    load evaluation: the status its status line has already shown. *)
Theorem listing_failure_is_local :
  forall (double : Type) (P : Platform double) (cl : cmdline) (e : env double),
    fst (np_runcmd e) <> 0 \/ (List.length (snd (np_runcmd e)) < 2)%nat ->
    (forall g, exists diag,
        (diag = Ps_nonzero \/ diag = Ps_no_list) /\
        print_top_consuming_processes g e =
        ([Call_np_runcmd; Stderr diag], Return STATE_UNKNOWN)) /\
    (forall t g la,
        process_arguments cl static_init = (t, Return (OK, g)) ->
        getloadavg e = (3, la) ->
        any_negative la = false ->
        final (main cl e) = Return (load_status g e la) /\
        exit_status (main cl e) = load_status g e la /\
        load_status g e la <> STATE_UNKNOWN /\
        (0 < n_procs_to_show g ->
         exists before diag,
           (diag = Ps_nonzero \/ diag = Ps_no_list) /\
           In (Stdout (Status_line (load_status g e la)
                         (if scaled_mode g e then Some (scaled_sample g e la) else None)
                         la)) before /\
           trace (main cl e) = (before ++ [Call_np_runcmd; Stderr diag])%list)).
Proof.
  intros double P cl e Hfail.
  split; [intros g; now apply print_top_failure|].
  intros t g la Hpa Hla Hneg.
  assert (Hr : OK <> ERROR) by discriminate.
  pose proof (main_run cl e t OK g la Hpa Hr Hla Hneg) as Hrun.
  split; [now rewrite Hrun|].
  split; [now rewrite Hrun|].
  split.
  { unfold load_status. rewrite evaluate_loop_status.
    repeat destruct (some_exceeds _ _); discriminate. }
  intros Hn. destruct (print_top_failure g e Hfail) as (diag & Hdiag & Hp).
  rewrite Hrun.
  destruct (Z.gtb_spec (n_procs_to_show g) 0) as [_|]; [|lia].
  rewrite Hp. cbn [trace fst].
  match goal with
  | |- context [(t ++ ?a ++ ?b ++ ?c ++ ?d ++ ?n ++ _)%list] =>
      exists (t ++ a ++ b ++ c ++ d ++ n)%list
  end.
  exists diag. split; [exact Hdiag|].
  split; [|rewrite <- !app_assoc; reflexivity].
  rewrite !in_app_iff. right. right. right. left. now left.
Qed.

Lemma listing_failure_is_local_witness :
  exit_status (main Samples.cl_w1_c2_n3
                    (Samples.env_load Samples.la_high (1, [])))
  = STATE_CRITICAL /\
  exit_status (main Samples.cl_w1_c2_n3
                    (Samples.env_load Samples.la_high
                                      (0, ["UID PID PPID VSZ RSS %CPU STAT COMMAND"])))
  = STATE_CRITICAL.
Proof.
  split.
  - refine (proj1 (proj2
      (proj2 (listing_failure_is_local
                Q QPlatform Samples.cl_w1_c2_n3
                (Samples.env_load Samples.la_high (1, [])) _)
             [] Samples.g_w1_c2_n3 Samples.la_high eq_refl eq_refl eq_refl))).
    left; simpl; lia.
  - refine (proj1 (proj2
      (proj2 (listing_failure_is_local
                Q QPlatform Samples.cl_w1_c2_n3
                (Samples.env_load Samples.la_high
                   (0, ["UID PID PPID VSZ RSS %CPU STAT COMMAND"])) _)
             [] Samples.g_w1_c2_n3 Samples.la_high eq_refl eq_refl eq_refl))).
    right; simpl; lia.
Defined.

(** ** C10 *)

Section Defaults.
Context {double : Type} `{!Platform double}.
(** [<] on doubles is asymmetric *)
Hypothesis d_lt_asymmetric :
  forall a b : double, d_lt a b = true -> d_lt b a = false.

Lemma d_lt_irrefl (a : double) : d_lt a a = false.
Proof.
  destruct (d_lt a a) eqn:E; [|reflexivity].
  now rewrite (d_lt_asymmetric a a E) in E.
Qed.

(** Options other than -w and -c that keep the run going leave the
    thresholds as they are; -r switches the scaling on. *)
Lemma process_options_keep_thresholds opts g :
  (forall c optarg, In (c, optarg) opts -> c = "r"%char \/ c = "n"%char) ->
  exists g', process_options opts g = ([], Return g') /\
             wload g' = wload g /\ cload g' = cload g /\
             take_into_account_cpus g' =
             take_into_account_cpus g
             || existsb (fun o => Ascii.eqb (fst o) "r"%char) opts.
Proof.
  revert g; induction opts as [|[c optarg] opts IH]; intros g Hopts.
  - exists g. repeat split. simpl. now rewrite orb_false_r.
  - assert (Hrest : forall c' optarg', In (c', optarg') opts ->
                                       c' = "r"%char \/ c' = "n"%char)
      by (intros c' o' Hin; apply (Hopts c' o'); now right).
    destruct (Hopts c optarg (or_introl eq_refl)) as [-> | ->]; simpl.
    + destruct (IH (set_take_into_account_cpus g true) Hrest)
        as (g' & E & Hw & Hc & Hr).
      exists g'. rewrite E, Hr. simpl. rewrite orb_true_r.
      repeat split; assumption.
    + destruct (IH (set_n_procs_to_show g (atoi optarg)) Hrest)
        as (g' & E & Hw & Hc & Hr).
      exists g'. rewrite E, Hr. repeat split; assumption.
Qed.

Lemma validate_arguments_defaults g :
  wload g = Arr3 d_zero d_zero d_zero -> cload g = Arr3 d_zero d_zero d_zero ->
  validate_arguments g = ([], Return OK).
Proof.
  intros Hw Hc. unfold validate_arguments. cbn -[aget].
  rewrite Hw, Hc. cbn. unfold d_gt. rewrite d_lt_irrefl. reflexivity.
Qed.

Lemma positive_not_negative (la : arr3 double) :
  (forall i, (i < 3)%nat -> d_gt (aget la i) d_zero = true) ->
  any_negative la = false.
Proof.
  intros Hpos.
  pose proof (Hpos 0%nat ltac:(lia)) as H0.
  pose proof (Hpos 1%nat ltac:(lia)) as H1.
  pose proof (Hpos 2%nat ltac:(lia)) as H2.
  unfold d_gt in H0, H1, H2. unfold any_negative.
  now rewrite (d_lt_asymmetric _ _ H0), (d_lt_asymmetric _ _ H1),
              (d_lt_asymmetric _ _ H2).
Qed.

(** With both triplets at zero the status is CRITICAL or OK. *)
Lemma load_status_defaults g e (la : arr3 double) :
  wload g = Arr3 d_zero d_zero d_zero -> cload g = Arr3 d_zero d_zero d_zero ->
  load_status g e la =
  if some_exceeds (comparison (scaled_mode g e) (scaled_sample g e la) la)
                  (Arr3 d_zero d_zero d_zero)
  then STATE_CRITICAL else STATE_OK.
Proof.
  intros Hw Hc. unfold load_status. rewrite evaluate_loop_status, Hw, Hc.
  now destruct (some_exceeds _ _).
Qed.

Lemma aget_scale (la : arr3 double) n i :
  (i < 3)%nat -> aget (scale la n) i = d_div (aget la i) (d_of_long n).
Proof. intros Hi. destruct i as [|[|[|i]]]; try lia; reflexivity. Qed.
End Defaults.

(** C10, amended: both threshold triplets start as {0.0, 0.0, 0.0}; a run
    with options but without -w, -c and positional arguments passes
    validation with the triplets still at zero, validation rejecting
    negative and inverted thresholds only.  After it a load sample with
    three strictly positive values ends the run with exit CRITICAL when the
    loads are compared as they are (no -r, or no positive CPU count).  Under
    -r with a positive CPU count it is the quotients that are compared: the
    exit is CRITICAL exactly when some load divided by the CPU count is
    still strictly positive, and OK exactly when none is. *)
Theorem default_thresholds_exit_status :
  forall (double : Type) (P : Platform double)
         (cl : cmdline) (e : env double) (la : arr3 double),
    (forall a b : double, d_lt a b = true -> d_lt b a = false) ->
    2 <= argc cl ->
    optind cl = argc cl ->
    (forall c optarg, In (c, optarg) (getopt_long cl) ->
                      c = "r"%char \/ c = "n"%char) ->
    wload static_init = Arr3 d_zero d_zero d_zero /\
    cload static_init = Arr3 d_zero d_zero d_zero /\
    (exists g, process_arguments cl static_init = ([], Return (OK, g)) /\
               wload g = Arr3 d_zero d_zero d_zero /\
               cload g = Arr3 d_zero d_zero d_zero /\
               take_into_account_cpus g = has_option "r" cl) /\
    (forall g, final (validate_arguments g) = Return OK <->
               forall i, (i < 3)%nat -> rejected g i = false) /\
    (getloadavg e = (3, la) ->
     (forall i, (i < 3)%nat -> d_gt (aget la i) d_zero = true) ->
     (has_option "r" cl = false \/ GET_NUMBER_OF_CPUS e <= 0 ->
      exit_status (main cl e) = STATE_CRITICAL) /\
     (has_option "r" cl = true -> 0 < GET_NUMBER_OF_CPUS e ->
      (exit_status (main cl e) = STATE_CRITICAL <->
       exists i, (i < 3)%nat /\
                 d_gt (d_div (aget la i) (d_of_long (GET_NUMBER_OF_CPUS e)))
                      d_zero = true) /\
      (exit_status (main cl e) = STATE_OK <->
       forall i, (i < 3)%nat ->
                 d_gt (d_div (aget la i) (d_of_long (GET_NUMBER_OF_CPUS e)))
                      d_zero = false))).
Proof.
  intros double P cl e la Hasym Hargc Hind Hopts.
  split; [reflexivity|]. split; [reflexivity|].
  destruct (process_options_keep_thresholds (getopt_long cl) static_init Hopts)
    as (g & Eopts & Hw & Hc & Hr).
  simpl in Hw, Hc, Hr. fold (has_option "r" cl) in Hr.
  assert (Hpa : process_arguments cl static_init = ([], Return (OK, g))).
  { unfold process_arguments.
    destruct (Z.ltb_spec (argc cl) 2); [lia|].
    rewrite Eopts, bind_return.
    destruct (Z.eqb_spec (optind cl) (argc cl)); [|contradiction].
    rewrite (validate_arguments_defaults Hasym g Hw Hc). reflexivity. }
  split; [exists g; repeat split; assumption|].
  split; [exact validate_arguments_accepts|].
  intros Hla Hpos.
  pose proof (positive_not_negative Hasym la Hpos) as Hneg.
  rewrite (main_exit_status cl e [] OK g la Hpa ltac:(discriminate) Hla Hneg).
  rewrite (load_status_defaults g e la Hw Hc).
  unfold scaled_sample, scaled_mode. rewrite Hr.
  split.
  - intros Hraw.
    assert (Hmode : has_option "r" cl && (GET_NUMBER_OF_CPUS e >? 0) = false).
    { destruct Hraw as [-> | Hcpu]; [reflexivity|].
      destruct (Z.gtb_spec (GET_NUMBER_OF_CPUS e) 0); [lia | apply andb_false_r]. }
    rewrite Hmode. unfold comparison.
    replace (some_exceeds la _) with true; [reflexivity|].
    symmetry. apply some_exceeds_spec. exists 0%nat. split; [lia|].
    exact (Hpos 0%nat ltac:(lia)).
  - intros Hron Hcpu. rewrite Hron.
    destruct (Z.gtb_spec (GET_NUMBER_OF_CPUS e) 0) as [_|]; [|lia].
    cbn [andb comparison].
    destruct (some_exceeds (scale la (GET_NUMBER_OF_CPUS e)) _) eqn:Hsome.
    + apply some_exceeds_spec in Hsome as (i & Hi & Hex).
      unfold exceeds in Hex. rewrite (aget_scale la _ i Hi) in Hex.
      assert (Hz : aget (Arr3 d_zero d_zero d_zero) i = d_zero)
        by (destruct i as [|[|[|i]]]; reflexivity).
      rewrite Hz in Hex.
      split; split.
      * intros _. now exists i.
      * reflexivity.
      * discriminate.
      * intros Hnone. rewrite (Hnone i Hi) in Hex. discriminate.
    + pose proof (proj1 (none_exceeds_spec _ _) Hsome) as Hnone.
      assert (Hq : forall i, (i < 3)%nat ->
                     d_gt (d_div (aget la i) (d_of_long (GET_NUMBER_OF_CPUS e)))
                          d_zero = false).
      { intros i Hi. specialize (Hnone i Hi). unfold exceeds in Hnone.
        rewrite (aget_scale la _ i Hi) in Hnone.
        destruct i as [|[|[|i]]]; try lia; exact Hnone. }
      split; split.
      * discriminate.
      * intros (i & Hi & Hex). rewrite (Hq i Hi) in Hex. discriminate.
      * intros _. exact Hq.
      * reflexivity.
Qed.

(** On binary64 the run [check_load -r -n 3] exits CRITICAL for the loads
    0.5, 0.25, 0.125 on four CPUs. *)
Lemma default_thresholds_exit_status_witness :
  exit_status (main Samples.cl_r_n3 F64Samples.env_half) = STATE_CRITICAL.
Proof.
  refine (proj2 (proj1 (proj2 (proj2 (proj2 (proj2 (proj2
    (default_thresholds_exit_status
       PrimFloat.float F64Platform Samples.cl_r_n3
       F64Samples.env_half F64Samples.la_half F64_d_lt_asym _ eq_refl _))))
    eq_refl _) eq_refl _)) _).
  - simpl; lia.
  - intros c optarg [E|[E|[]]]; injection E as <- _; [now left | now right].
  - intros i Hi.
    destruct i as [|[|[|i]]]; [reflexivity | reflexivity | reflexivity | lia].
  - simpl; lia.
  - exists 0%nat. split; [lia | reflexivity].
Defined.

(** C10 as it is worded does not hold on binary64: [check_load -r] on four
    CPUs with the load 2^-1074 in the three windows passes validation with
    both triplets at zero, the three loads are strictly positive, and the
    run exits OK, since 2^-1074 / 4 rounds to 0.0. *)
Lemma default_thresholds_not_always_critical :
  2 <= argc Samples.cl_r /\
  optind Samples.cl_r = argc Samples.cl_r /\
  (forall c optarg, In (c, optarg) (getopt_long Samples.cl_r) ->
                    c = "r"%char \/ c = "n"%char) /\
  process_arguments Samples.cl_r static_init
  = ([], Return (OK, Globals 0 (Arr3 PrimFloat.zero PrimFloat.zero PrimFloat.zero)
                             (Arr3 PrimFloat.zero PrimFloat.zero PrimFloat.zero)
                             true)) /\
  getloadavg F64Samples.env_tiny = (3, F64Samples.la_tiny) /\
  (forall i, (i < 3)%nat -> d_gt (aget F64Samples.la_tiny i) d_zero = true) /\
  d_div (aget F64Samples.la_tiny 0) (d_of_long 4) = d_zero /\
  exit_status (main Samples.cl_r F64Samples.env_tiny) = STATE_OK /\
  exit_status (main Samples.cl_r F64Samples.env_tiny) <> STATE_CRITICAL.
Proof.
  split; [simpl; lia|]. split; [reflexivity|].
  split; [intros c optarg [E|[]]; injection E as <- _; now left|].
  split; [reflexivity|]. split; [reflexivity|].
  split; [intros i Hi; destruct i as [|[|[|i]]];
          [reflexivity | reflexivity | reflexivity | lia]|].
  split; [reflexivity|]. split; [reflexivity | discriminate].
Qed.

(** * Further properties *)

(** ** ThresholdParser, continued *)

Section MoreThresholdFacts.
Context {double : Type} `{!Platform double}.

(** The array that [get_threshold] is given does not show in its result:
    every entry is written before it is read. *)
Lemma get_threshold_independent arg (th th' : arr3 double) :
  get_threshold arg th = get_threshold arg th'.
Proof.
  unfold get_threshold. simpl.
  repeat match goal with
         | |- context [strtod ?s] =>
             let v := fresh "v" in let len := fresh "len" in
             destruct (strtod s) as [v len]; simpl
         | |- context [Nat.eqb ?a 0] => destruct (Nat.eqb a 0); simpl
         | |- context [Nat.leb ?a ?b] => destruct (Nat.leb a b); simpl
         end; reflexivity.
Qed.

(** [get_threshold] gives a triplet without printing, or ends the run with
    its one message. *)
Lemma get_threshold_cases arg (th : arr3 double) :
  (exists th', get_threshold arg th = ret th') \/
  get_threshold arg th = usage "Warning threshold must be float or float triplet!".
Proof.
  unfold get_threshold.
  destruct (threshold_scan 3 0 arg _ 0 false th) as [[i valid] th'].
  destruct (Nat.eqb i 0 && negb valid); [now right|].
  left. destruct (negb (Nat.eqb i 2)); eauto.
Qed.

Lemma process_options_app (pre post : list (ascii * string)) (g : globals double) :
  process_options (pre ++ post)%list g =
  (g' <- process_options pre g ;; process_options post g').
Proof.
  revert g; induction pre as [|[c optarg] pre IH]; intros g; simpl.
  - now destruct (process_options post g).
  - destruct (process_option c optarg g) as [t [g1|code]]; [|reflexivity].
    rewrite !bind_return, IH.
    destruct (process_options pre g1) as [t1 [g2|code]]; simpl; [|reflexivity].
    destruct (process_options post g2) as [t2 o2]; simpl.
    now rewrite app_assoc.
Qed.
End MoreThresholdFacts.

(** X1: the result of [get_threshold] does not depend on what the array held
    before; hence, of two -w options (or two -c options) in a row the later
    one replaces the triplet of the earlier one entirely, when the earlier
    one is well formed. *)
Theorem repeated_threshold_option_replaces :
  forall (double : Type) (P : Platform double) (a b : string)
         (rest : list (ascii * string)) (g : globals double) (th : arr3 double),
    (forall arg th1 th2, get_threshold arg th1 = get_threshold arg th2) /\
    (get_threshold a (wload g) = ret th ->
     process_options (("w"%char, a) :: ("w"%char, b) :: rest) g
     = process_options (("w"%char, b) :: rest) g) /\
    (get_threshold a (cload g) = ret th ->
     process_options (("c"%char, a) :: ("c"%char, b) :: rest) g
     = process_options (("c"%char, b) :: rest) g).
Proof.
  intros double P a b rest g th.
  split; [intros arg th1 th2; apply get_threshold_independent|].
  split; intros Ha; simpl; rewrite Ha; unfold ret; rewrite !bind_return; simpl.
  - rewrite (get_threshold_independent b th (wload g)).
    destruct (get_threshold b (wload g)) as [t [thb|code]]; simpl; [|reflexivity].
    now destruct (process_options rest _).
  - rewrite (get_threshold_independent b th (cload g)).
    destruct (get_threshold b (cload g)) as [t [thb|code]]; simpl; [|reflexivity].
    now destruct (process_options rest _).
Qed.

Lemma repeated_threshold_option_replaces_witness :
  process_options [("w"%char, "9,8,7"); ("w"%char, "1")] static_init
  = process_options [("w"%char, "1")] static_init.
Proof.
  exact (proj1 (proj2 (repeated_threshold_option_replaces
                         Q QPlatform "9,8,7" "1" [] static_init
                         (Arr3 9%Q 8%Q 7%Q))) eq_refl).
Defined.

(** X2: the options -w and -c can come in either order: the two ways of
    processing them end alike, in the same configuration or with the same
    diagnostic and exit. *)
Theorem threshold_options_commute :
  forall (double : Type) (P : Platform double) (a b : string)
         (rest : list (ascii * string)) (g : globals double),
    process_options (("w"%char, a) :: ("c"%char, b) :: rest) g
    = process_options (("c"%char, b) :: ("w"%char, a) :: rest) g.
Proof.
  intros double P a b rest g. simpl. unfold set_wload, set_cload. simpl.
  destruct (get_threshold_cases a (wload g)) as [[tha Ha]|Ha];
    destruct (get_threshold_cases b (cload g)) as [[thb Hb]|Hb];
    repeat (rewrite ?Ha, ?Hb; simpl); reflexivity.
Qed.

(** X3: what follows a third field and its separator is ignored: for
    parseable numbers x, y, z the argument "x,y,z," followed by any text
    gives {x, y, z}. *)
Theorem get_threshold_ignores_fourth_field :
  forall (double : Type) (P : Platform double) (x y z rest : string)
         (vx vy vz : double) (th : arr3 double),
    number_field x vx -> number_field y vy -> number_field z vz ->
    get_threshold (x ++ "," ++ y ++ "," ++ z ++ "," ++ rest) th
    = ret (Arr3 vx vy vz).
Proof.
  intros double P x y z rest vx vy vz th Hx Hy Hz.
  pose proof (number_field_comma _ _ (y ++ String "," (z ++ String "," rest)) Hx) as Ex.
  pose proof (number_field_comma _ _ (z ++ String "," rest) Hy) as Ey.
  pose proof (number_field_comma _ _ rest Hz) as Ez.
  destruct Hx as [Hxpos _], Hy as [Hypos _], Hz as [Hzpos _].
  unfold get_threshold. simpl append.
  assert (Hn : String.length (x ++ String "," (y ++ String "," (z ++ String "," rest)))
               = (String.length x + 1 + String.length y + 1
                  + String.length z + 1 + String.length rest)%nat).
  { rewrite length_append; simpl; rewrite length_append; simpl;
      rewrite length_append; simpl; lia. }
  rewrite Hn.
  rewrite (scan_next_field 2 0 _ _ 0 false th vx (String.length x));
    [ | exact Ex | lia | lia ].
  simpl Nat.add.
  rewrite (scan_next_field 1 1 _ _ _ true _ vy (String.length y));
    [ | rewrite string_from_past_comma; exact Ey | lia | lia ].
  assert (E3 : strtod (string_from (String.length x + 1 + String.length y + 1)
                         (x ++ String "," (y ++ String "," (z ++ String "," rest))))
               = (vz, String.length z)).
  { replace (String.length x + 1 + String.length y + 1)%nat
      with ((String.length x + 1) + (String.length y + 1))%nat by lia.
    rewrite (string_from_add (String.length x + 1) (String.length y + 1)).
    rewrite !string_from_past_comma. exact Ez. }
  destruct rest as [|c rest].
  - rewrite (scan_last_field 0 2 _ _ _ true _ vz (String.length z));
      [ reflexivity | exact E3 | lia | simpl; lia ].
  - rewrite (scan_next_field 0 2 _ _ _ true _ vz (String.length z));
      [ reflexivity | exact E3 | lia | simpl; lia ].
Qed.

Lemma get_threshold_ignores_fourth_field_witness :
  let th := Arr3 0%Q 0%Q 0%Q in
  get_threshold "1,2.5,15,99,abc" th = ret (Arr3 1%Q (5 # 2)%Q 15%Q) /\
  get_threshold "1,2.5,15," th = ret (Arr3 1%Q (5 # 2)%Q 15%Q).
Proof.
  intros th. split.
  - exact (get_threshold_ignores_fourth_field
             Q QPlatform "1" "2.5" "15" "99,abc" 1%Q (5 # 2)%Q 15%Q th
             Q_number_field_1 Q_number_field_2_5 Q_number_field_15).
  - exact (get_threshold_ignores_fourth_field
             Q QPlatform "1" "2.5" "15" "" 1%Q (5 # 2)%Q 15%Q th
             Q_number_field_1 Q_number_field_2_5 Q_number_field_15).
Defined.

(** X4: the character after a field is skipped whatever it is, and a field
    list may end with it: "x" and "y" separated by any one character give
    {x, y, y}, and "x" followed by one character gives {x, x, x}. *)
Theorem get_threshold_any_separator :
  forall (double : Type) (P : Platform double) (x y : string) (c : ascii)
         (vx vx' vy : double) (th : arr3 double),
    field_before x vx (String c y) ->
    field_before y vy "" ->
    field_before x vx' (String c "") ->
    get_threshold (x ++ String c y) th = ret (Arr3 vx vy vy) /\
    get_threshold (x ++ String c "") th = ret (Arr3 vx' vx' vx').
Proof.
  intros double P x y c vx vx' vy th [Hxpos Ex] [Hypos Ey] [_ Ex'].
  rewrite append_empty_r in Ey.
  assert (Hfrom : forall r, string_from (String.length x + 1) (x ++ String c r) = r).
  { intros r. clear. induction x as [|a x IH]; simpl; [now destruct r | exact IH]. }
  split; unfold get_threshold.
  - rewrite (scan_next_field 2 0 _ _ 0 false th vx (String.length x));
      [ | exact Ex | lia | rewrite length_append; simpl; lia ].
    rewrite (scan_last_field 1 1 _ _ _ true _ vy (String.length y));
      [ reflexivity | | lia | rewrite length_append; simpl; lia ].
    simpl Nat.add. rewrite Hfrom. exact Ey.
  - rewrite (scan_last_field 2 0 _ _ 0 false th vx' (String.length x));
      [ reflexivity | exact Ex' | lia | rewrite length_append; simpl; lia ].
Qed.

Lemma get_threshold_any_separator_witness :
  let th := Arr3 0%Q 0%Q 0%Q in
  get_threshold "1:2.5" th = ret (Arr3 1%Q (5 # 2)%Q (5 # 2)%Q) /\
  get_threshold "1:" th = ret (Arr3 1%Q 1%Q 1%Q).
Proof.
  intros th.
  refine (get_threshold_any_separator
            Q QPlatform "1" "2.5" ":"%char 1%Q 1%Q (5 # 2)%Q th _ _ _);
    (split; [simpl; lia | reflexivity]).
Defined.

(** ** Validation, continued *)

Section MoreValidationFacts.
Context {double : Type} `{!Platform double}.

Lemma validate_loop_first_rejected k i j (g : globals double) :
  (i <= j < i + k)%nat ->
  rejected g j = true ->
  (forall m, (i <= m < j)%nat -> rejected g m = false) ->
  validate_loop k i g =
  ([Stdout (Die (diagnostic_of g j) (aget nums j))], Exit STATE_UNKNOWN).
Proof.
  revert i; induction k as [|k IH]; intros i Hj Hrej Hbefore; [lia|].
  destruct (Nat.eq_dec i j) as [->|Hne].
  - unfold rejected in Hrej. unfold diagnostic_of. simpl validate_loop.
    destruct (d_lt (aget (cload g) j) d_zero); [reflexivity|].
    destruct (d_lt (aget (wload g) j) d_zero); [reflexivity|].
    simpl in Hrej. rewrite Hrej. reflexivity.
  - pose proof (Hbefore i ltac:(lia)) as Hi. unfold rejected in Hi.
    apply orb_false_iff in Hi as [Hi Hgt]. apply orb_false_iff in Hi as [Hc Hw].
    simpl validate_loop. rewrite Hc, Hw, Hgt.
    cbn -[validate_loop]. rewrite (IH (S i)); [reflexivity | lia | exact Hrej |].
    intros m Hm. apply Hbefore. lia.
Qed.
End MoreValidationFacts.

(** X5: a configuration that validation rejects ends the run with exit
    UNKNOWN and exactly one diagnostic, which names the first rejected
    window (1, 5 or 15) and the first test that window fails: a negative
    critical threshold, then a negative warning threshold, then a warning
    threshold above the critical one. *)
Theorem validation_names_first_rejected_window :
  forall (double : Type) (P : Platform double) (g : globals double) (i : nat),
    (i < 3)%nat ->
    first_rejected g i ->
    validate_arguments g =
    ([Stdout (Die (diagnostic_of g i) (aget nums i))], Exit STATE_UNKNOWN) /\
    In (aget nums i) [1; 5; 15].
Proof.
  intros double P g i Hi [Hrej Hbefore].
  split.
  - unfold validate_arguments.
    rewrite (validate_loop_first_rejected 3 0 i g); [reflexivity | lia | exact Hrej |].
    intros m Hm. apply Hbefore. lia.
  - destruct i as [|[|[|i]]]; simpl; try lia; tauto.
Qed.

Lemma validation_names_first_rejected_window_witness :
  validate_arguments MoreSamples.g_inverted_5 =
  ([Stdout (Die (diagnostic_of MoreSamples.g_inverted_5 1) 5)],
   Exit STATE_UNKNOWN) /\
  diagnostic_of MoreSamples.g_inverted_5 1 =
  "Parameter inconsistency: %d-minute 'warning load' is greater than 'critical load'".
Proof.
  split; [|reflexivity].
  refine (proj1 (validation_names_first_rejected_window
                   Q QPlatform MoreSamples.g_inverted_5 1 _ _)).
  - lia.
  - split; [reflexivity|].
    intros j Hj. destruct j as [|j]; [reflexivity | lia].
Defined.

(** ** The runs of [main] *)

Section RunFacts.
Context {double : Type} `{!Platform double}.

Lemma bind_inv_return {A B} (m : M double A) (f : A -> M double B) t (b : B) :
  bind m f = (t, Return b) ->
  exists t1 a t2, m = (t1, Return a) /\ f a = (t2, Return b) /\ t = (t1 ++ t2)%list.
Proof.
  destruct m as [t1 [a|code]]; simpl; [|discriminate].
  destruct (f a) as [t2 o] eqn:Ef. intros [= <- ->].
  now exists t1, a, t2.
Qed.

Lemma process_arguments_answer cl (g0 : globals double) t r g :
  process_arguments cl g0 = (t, Return (r, g)) -> r = ERROR \/ r = OK.
Proof.
  assert (Hv : forall g' t' g'',
             (r' <- validate_arguments g' ;; ret (r', g')) = (t', Return (r, g'')) ->
             r = OK).
  { intros g' t' g'' E. apply bind_inv_return in E as (t1 & a & t2 & Ev & Er & _).
    unfold ret in Er. injection Er as _ Ha _. subst a.
    unfold validate_arguments in Ev.
    apply bind_inv_return in Ev as (t3 & u & t4 & _ & Er & _).
    unfold ret in Er. now injection Er as _ Ha. }
  unfold process_arguments.
  destruct (argc cl <? 2); [unfold ret; intros [= _ <- _]; now left|].
  intros E. right.
  apply bind_inv_return in E as (t1 & g1 & t2 & _ & E & _).
  destruct (optind cl =? argc cl); [now apply Hv in E|].
  apply bind_inv_return in E as (t3 & g2 & t4 & _ & E & _).
  now apply Hv in E.
Qed.

Lemma print_top_trace (g : globals double) (e : env double) :
  exists out, trace (print_top_consuming_processes g e) = Call_np_runcmd :: out /\
              forallb is_listing_output out = true.
Proof.
  unfold print_top_consuming_processes.
  destruct (np_runcmd e) as [status line].
  destruct (negb (status =? 0)); [now exists [Stderr Ps_nonzero]|].
  destruct (Z.of_nat (List.length line) <? 2); [now exists [Stderr Ps_no_list]|].
  rewrite print_rows_spec. cbn [bind emit ret trace fst app].
  eexists. split; [reflexivity|].
  rewrite app_nil_r. apply forallb_forall. intros ev Hin.
  apply in_map_iff in Hin as (row & <- & _). reflexivity.
Qed.

Lemma main_is_run cl (e : env double) : run cl e (main cl e).
Proof.
  destruct (process_arguments_stage cl static_init) as [_ Hc].
  destruct (process_arguments cl static_init) as [t [[r g]|code]] eqn:Hpa.
  - destruct (process_arguments_answer _ _ _ _ _ Hpa) as [-> | ->].
    + replace (main cl e)
        with ((t ++ [Stdout (Usage4 "Could not parse arguments")])%list,
              @Exit Z STATE_UNKNOWN)
        by (unfold main; rewrite Hpa; reflexivity).
      now apply Run_no_arguments with g.
    + destruct (getloadavg e) as [res la] eqn:Hla.
      destruct (Z.eq_dec res 3) as [->|Hres].
      * destruct (any_negative la) eqn:Hneg.
        -- rewrite (main_negative_path cl e t OK g la Hpa ltac:(discriminate) Hla Hneg).
           now apply Run_negative_load with g la.
        -- rewrite (main_run cl e t OK g la Hpa ltac:(discriminate) Hla Hneg).
           now apply Run_checked.
      * replace (main cl e) with ((t ++ [Call_getloadavg])%list, @Return Z STATE_UNKNOWN).
        -- now apply Run_no_load with g res la.
        -- unfold main. rewrite Hpa, bind_return.
           change (OK =? ERROR) with false. cbv iota. rewrite Hla.
           destruct (Z.eqb_spec res 3) as [|_]; [contradiction|]. reflexivity.
  - simpl in Hc. rewrite (Hc code eq_refl) in Hpa.
    replace (main cl e) with (t, @Exit Z STATE_UNKNOWN)
      by (unfold main; rewrite Hpa; reflexivity).
    now apply Run_fatal_arguments with STATE_UNKNOWN.
Qed.

Lemma load_status_range (g : globals double) e la :
  load_status g e la = STATE_OK \/ load_status g e la = STATE_WARNING
  \/ load_status g e la = STATE_CRITICAL.
Proof.
  unfold load_status. rewrite evaluate_loop_status.
  repeat destruct (some_exceeds _ _); tauto.
Qed.

Lemma trace_pair {A} (t : list (event double)) (o : outcome A) : trace (t, o) = t.
Proof. reflexivity. Qed.

Lemma status_lines_app (t1 t2 : list (event double)) :
  status_lines (t1 ++ t2) = (status_lines t1 ++ status_lines t2)%list.
Proof. apply flat_map_app. Qed.

Lemma calls_app (t1 t2 : list (event double)) :
  calls (t1 ++ t2) = (calls t1 ++ calls t2)%list.
Proof. apply filter_app. Qed.

Lemma perf_entries_app (t1 t2 : list (event double)) :
  perf_entries (t1 ++ t2) = (perf_entries t1 ++ perf_entries t2)%list.
Proof. apply flat_map_app. Qed.

Lemma diagnostics_quiet (t : list (event double)) :
  forallb is_diagnostic t = true ->
  status_lines t = [] /\ calls t = [] /\ perf_entries t = [].
Proof.
  induction t as [|ev t IH]; simpl; [tauto|].
  intros Hd. apply andb_true_iff in Hd as [Hev Ht].
  destruct (IH Ht) as (-> & IHc & ->). unfold calls in *. simpl. rewrite IHc.
  destruct ev as [| | |[]|]; try discriminate; repeat split.
Qed.

Lemma listing_output_quiet (t : list (event double)) :
  forallb is_listing_output t = true ->
  status_lines t = [] /\ calls t = [] /\ perf_entries t = [].
Proof.
  induction t as [|ev t IH]; simpl; [tauto|].
  intros Hd. apply andb_true_iff in Hd as [Hev Ht].
  destruct (IH Ht) as (-> & IHc & ->). unfold calls in *. simpl. rewrite IHc.
  destruct ev as [| | |[]|]; try discriminate; repeat split.
Qed.

Lemma perfdata_quiet b (scaled_la la : arr3 double) (g : globals double) :
  status_lines (trace (perfdata_loop 3 0 b scaled_la la g)) = [] /\
  calls (trace (perfdata_loop 3 0 b scaled_la la g)) = [].
Proof. destruct b; split; reflexivity. Qed.
End RunFacts.

Section AcceptedFacts.
Context {double : Type} `{!Platform double}.

Lemma process_options_return_silent opts (g g' : globals double) t :
  process_options opts g = (t, Return g') -> t = [].
Proof.
  revert g t; induction opts as [|[c optarg] opts IH]; intros g t E; simpl in E.
  - now injection E as <- _.
  - apply bind_inv_return in E as (t1 & g1 & t2 & E1 & E2 & ->).
    rewrite (IH _ _ E2), app_nil_r.
    unfold process_option in E1.
    destruct c as [[] [] [] [] [] [] [] []];
      try (injection E1 as <- _; reflexivity);
      try discriminate;
      (apply bind_inv_return in E1 as (t3 & th & t4 & E3 & E4 & ->);
       injection E4 as <- _;
       destruct (get_threshold_cases optarg (wload g)) as [[th1 H1]|H1];
       destruct (get_threshold_cases optarg (cload g)) as [[th2 H2]|H2];
       rewrite ?H1, ?H2 in E3; try discriminate;
       now injection E3 as <- _).
Qed.

Lemma validated_return (g : globals double) t r g' :
  (r' <- validate_arguments g ;; ret (r', g)) = (t, Return (r, g')) ->
  g' = g /\ t = [] /\ final (validate_arguments g) = Return OK.
Proof.
  intros E. apply bind_inv_return in E as (t1 & a & t2 & Ev & Er & ->).
  unfold ret in Er. injection Er as <- _ <-.
  unfold validate_arguments in Ev |- *.
  destruct (validate_loop 3 0 g) as [tv [[]|code]] eqn:El; [|discriminate].
  assert (Hok : forall i, (i < 3)%nat -> rejected g i = false).
  { intros i Hi. destruct (rejected g i) eqn:Hrej; [|reflexivity].
    destruct (validate_loop_rejects 3 0 i g ltac:(lia) Hrej) as [tx Ex].
    rewrite Ex in El. discriminate. }
  rewrite (validate_loop_accepts 3 0 g) in El by (intros j Hj; apply Hok; lia).
  injection El as <-. simpl in Ev. injection Ev as <- _.
  repeat split.
Qed.

(** A command line that the argument stage accepts has printed nothing and
    has passed validation. *)
Lemma process_arguments_return_silent cl (t : list (event double)) g :
  process_arguments cl static_init = (t, Return (OK, g)) ->
  t = [] /\ final (validate_arguments g) = Return OK.
Proof.
  intros Hpa. unfold process_arguments in Hpa.
  destruct (argc cl <? 2); [discriminate|].
  apply bind_inv_return in Hpa as (t1 & g1 & t2 & Eopts & E & ->).
  apply process_options_return_silent in Eopts as ->.
  destruct (optind cl =? argc cl).
  - apply validated_return in E as (-> & -> & Hv). now split.
  - apply bind_inv_return in E as (t3 & g2 & t4 & Epos & E & ->).
    apply validated_return in E as (-> & -> & Hv).
    split; [|exact Hv].
    destruct (optind cl - argc cl =? 2); [|destruct (optind cl - argc cl =? 1)].
    + apply bind_inv_return in Epos as (t5 & w & t6 & Ew & Ec & ->).
      apply bind_inv_return in Ec as (t7 & cr & t8 & Ec & Er & ->).
      unfold ret in Er. injection Er as <- _.
      destruct (get_threshold_cases (arg_at cl (optind cl)) (wload g1))
        as [[th1 H1]|H1]; rewrite H1 in Ew; [|discriminate].
      destruct (get_threshold_cases (arg_at cl (optind cl + 1))
                                    (cload (set_wload g1 w)))
        as [[th2 H2]|H2]; rewrite H2 in Ec; [|discriminate].
      injection Ew as <- _. now injection Ec as <- _.
    + apply bind_inv_return in Epos as (t5 & cr & t6 & Ec & Er & ->).
      unfold ret in Er. injection Er as <- _.
      destruct (get_threshold_cases (arg_at cl (optind cl)) (cload g1))
        as [[th2 H2]|H2]; rewrite H2 in Ec; [|discriminate].
      now injection Ec as <- _.
    + now injection Epos as <- _.
Qed.
End AcceptedFacts.

(** X6: every run ends with one of the four exit codes 0 to 3; it prints
    exactly one status line when the exit code is not UNKNOWN, and that
    line shows the status the process exits with; a run that ends UNKNOWN
    prints no status line. *)
Theorem status_line_matches_exit_status :
  forall (double : Type) (P : Platform double) (cl : cmdline) (e : env double),
    In (exit_status (main cl e))
       [STATE_OK; STATE_WARNING; STATE_CRITICAL; STATE_UNKNOWN] /\
    status_lines (trace (main cl e)) =
    (if exit_status (main cl e) =? STATE_UNKNOWN then []
     else [exit_status (main cl e)]).
Proof.
  intros double P cl e.
  destruct (process_arguments_stage cl static_init) as [Hd _].
  destruct (main_is_run cl e) as
    [cl e t code Hpa | cl e t g Hpa | cl e t g res la Hpa Hla Hres
     | cl e t g la Hpa Hla Hneg | cl e t g la Hpa Hla Hneg];
    rewrite Hpa in Hd; simpl in Hd;
    destruct (diagnostics_quiet t Hd) as (Hs & _ & _);
    unfold exit_status, final; rewrite trace_pair; cbn [snd];
    rewrite ?status_lines_app, ?Hs; try (split; [simpl; tauto | reflexivity]).
  destruct (perfdata_quiet (scaled_mode g e) (scaled_sample g e la) la g) as [-> _].
  assert (Hps : status_lines (if n_procs_to_show g >? 0
                              then trace (print_top_consuming_processes g e)
                              else []) = []).
  { destruct (n_procs_to_show g >? 0); [|reflexivity].
    destruct (print_top_trace g e) as (out & -> & Hout).
    destruct (listing_output_quiet out Hout) as (Ho & _ & _).
    exact Ho. }
  rewrite Hps.
  assert (Hcpus : status_lines (if take_into_account_cpus g
                                then [@Call_get_number_of_cpus double] else []) = [])
    by now destruct (take_into_account_cpus g).
  rewrite Hcpus. cbn.
  destruct (load_status_range g e la) as [-> | [-> | ->]];
    (split; [simpl; tauto | reflexivity]).
Qed.

(** X7: a run reads the load at most once, and only after the argument
    stage has accepted the command line; it asks for the number of CPUs only
    under -r and runs the listing command only for a positive count, each
    once, in this order, and only when the load it read is valid (the exit
    code is not UNKNOWN). *)
Theorem external_calls_of_a_run :
  forall (double : Type) (P : Platform double) (cl : cmdline) (e : env double),
    (exit_status (main cl e) = STATE_UNKNOWN ->
     calls (trace (main cl e)) = [] \/
     calls (trace (main cl e)) = [Call_getloadavg]) /\
    (forall code, final (process_arguments cl static_init) = Exit code ->
                  calls (trace (main cl e)) = []) /\
    (forall t g, process_arguments cl static_init = (t, Return (OK, g)) ->
                 exit_status (main cl e) <> STATE_UNKNOWN ->
                 calls (trace (main cl e)) =
                 ([Call_getloadavg]
                    ++ (if take_into_account_cpus g
                        then [Call_get_number_of_cpus] else [])
                    ++ (if n_procs_to_show g >? 0 then [Call_np_runcmd] else []))%list).
Proof.
  intros double P cl e.
  destruct (process_arguments_stage cl static_init) as [Hd _].
  destruct (main_is_run cl e) as
    [cl e t code Hpa | cl e t g Hpa | cl e t g res la Hpa Hla Hres
     | cl e t g la Hpa Hla Hneg | cl e t g la Hpa Hla Hneg];
    rewrite Hpa in Hd |- *; simpl in Hd;
    destruct (diagnostics_quiet t Hd) as (_ & Hc & _);
    unfold exit_status, final; rewrite trace_pair; cbn [snd];
    rewrite ?calls_app, ?Hc.
  - split; [now left|]. split; [reflexivity|]. intros t' g' [=].
  - split; [now left|]. split; [intros code [=]|]. intros t' g' [=].
  - split; [now right|]. split; [intros code [=]|]. intros t' g' _ Hx. now elim Hx.
  - split; [now right|]. split; [intros code [=]|]. intros t' g' _ Hx. now elim Hx.
  - destruct (perfdata_quiet (scaled_mode g e) (scaled_sample g e la) la g) as [_ ->].
    assert (Hps : calls (if n_procs_to_show g >? 0
                         then trace (print_top_consuming_processes g e)
                         else []) =
                  if n_procs_to_show g >? 0 then [Call_np_runcmd] else []).
    { destruct (n_procs_to_show g >? 0); [|reflexivity].
      destruct (print_top_trace g e) as (out & -> & Hout).
      destruct (listing_output_quiet out Hout) as (_ & Ho & _).
      unfold calls in *. simpl. now rewrite Ho. }
    rewrite Hps.
    assert (Hcpus : calls (if take_into_account_cpus g
                           then [@Call_get_number_of_cpus double] else []) =
                    if take_into_account_cpus g then [Call_get_number_of_cpus] else [])
      by now destruct (take_into_account_cpus g).
    rewrite Hcpus.
    split; [intros Hx; destruct (load_status_range g e la) as [H1|[H1|H1]];
            rewrite H1 in Hx; discriminate|].
    split; [intros code [=]|].
    intros t' g' [= <- <-] _. reflexivity.
Qed.

Lemma external_calls_of_a_run_witness :
  calls (trace (main Samples.cl_w1_c2_n3
                     (Samples.env_load Samples.la_high (0, Samples.listing))))
  = [Call_getloadavg; Call_np_runcmd].
Proof.
  refine (proj2 (proj2 (external_calls_of_a_run
                          Q QPlatform Samples.cl_w1_c2_n3
                          (Samples.env_load Samples.la_high (0, Samples.listing))))
                [] Samples.g_w1_c2_n3 eq_refl _).
  vm_compute. discriminate.
Defined.

(** X8: under -r a CPU count that is zero or negative switches scaling off
    without a message: the raw loads are compared with the thresholds, the
    status is the one of a run without -r, and the status line and the
    performance data are those of the unscaled mode.  The run is exactly:
    the load is read, the CPU count is asked for under -r, then the status
    line, the three entries of the performance data, the end of the line
    and, for a positive -n, the process listing; nothing is printed before
    the status line. *)
Theorem no_cpu_count_disables_scaling :
  forall (double : Type) (P : Platform double) (cl : cmdline) (e : env double)
         (t : list (event double)) (g : globals double) (la : arr3 double),
    process_arguments cl static_init = (t, Return (OK, g)) ->
    getloadavg e = (3, la) ->
    any_negative la = false ->
    GET_NUMBER_OF_CPUS e <= 0 ->
    exit_status (main cl e)
    = fst (evaluate_loop 3 0 false unscaled la g STATE_OK) /\
    exit_status (main cl e)
    = load_status (set_take_into_account_cpus g false) e la /\
    In (Stdout (Status_line (exit_status (main cl e)) None la)) (trace (main cl e)) /\
    perf_entries (trace (main cl e))
    = [Perf_load 1 (a0 la) (Some (a0 (wload g), a0 (cload g)));
       Perf_load 5 (a1 la) (Some (a1 (wload g), a1 (cload g)));
       Perf_load 15 (a2 la) (Some (a2 (wload g), a2 (cload g)))] /\
    t = [] /\
    main cl e
    = (([Call_getloadavg]
          ++ (if take_into_account_cpus g then [Call_get_number_of_cpus] else [])
          ++ [Stdout (Status_line
                        (fst (evaluate_loop 3 0 false unscaled la g STATE_OK))
                        None la);
              Stdout (Perf (Perf_load 1 (a0 la) (Some (a0 (wload g), a0 (cload g)))));
              Stdout (Perf (Perf_load 5 (a1 la) (Some (a1 (wload g), a1 (cload g)))));
              Stdout (Perf (Perf_load 15 (a2 la) (Some (a2 (wload g), a2 (cload g)))));
              Stdout Newline]
          ++ (if n_procs_to_show g >? 0
              then trace (print_top_consuming_processes g e) else []))%list,
       Return (fst (evaluate_loop 3 0 false unscaled la g STATE_OK))).
Proof.
  intros double P cl e t g la Hpa Hla Hneg Hcpu.
  destruct (process_arguments_return_silent cl t g Hpa) as [Ht _].
  subst t.
  rewrite (main_run cl e [] OK g la Hpa ltac:(discriminate) Hla Hneg).
  assert (Hmode : scaled_mode g e = false).
  { unfold scaled_mode. destruct (Z.gtb_spec (GET_NUMBER_OF_CPUS e) 0); [lia|].
    apply andb_false_r. }
  unfold exit_status, final. rewrite trace_pair. cbn [snd].
  unfold load_status, scaled_sample. rewrite Hmode.
  assert (Hoff : scaled_mode (set_take_into_account_cpus g false) e = false)
    by reflexivity.
  rewrite Hoff.
  split; [reflexivity|]. split; [reflexivity|].
  split; [|split; [|split; [reflexivity|]]].
  - rewrite !in_app_iff. right. right. right. left. now left.
  - rewrite !perf_entries_app.
    assert (Hps : perf_entries (if n_procs_to_show g >? 0
                                then trace (print_top_consuming_processes g e)
                                else []) = []).
    { destruct (n_procs_to_show g >? 0); [|reflexivity].
      destruct (print_top_trace g e) as (out & -> & Hout).
      destruct (listing_output_quiet out Hout) as (_ & _ & Ho).
      exact Ho. }
    rewrite Hps. now destruct (take_into_account_cpus g).
  - cbn [app]. destruct (take_into_account_cpus g); reflexivity.
Qed.

(** [check_load -r -w 1 -c 2] for the loads 2.5, 2.0, 1.5 on a system that
    reports no CPU: the whole run. *)
Lemma no_cpu_count_disables_scaling_witness :
  main MoreSamples.cl_r_w1_c2 MoreSamples.env_no_cpu
  = ([Call_getloadavg; Call_get_number_of_cpus;
      Stdout (Status_line STATE_CRITICAL None Samples.la_high);
      Stdout (Perf (Perf_load 1 (5 # 2)%Q (Some (1%Q, 2%Q))));
      Stdout (Perf (Perf_load 5 2%Q (Some (1%Q, 2%Q))));
      Stdout (Perf (Perf_load 15 (3 # 2)%Q (Some (1%Q, 2%Q))));
      Stdout Newline],
     Return STATE_CRITICAL).
Proof.
  refine (proj2 (proj2 (proj2 (proj2 (proj2
            (no_cpu_count_disables_scaling
               Q QPlatform MoreSamples.cl_r_w1_c2 MoreSamples.env_no_cpu
               [] MoreSamples.g_r_w1_c2 Samples.la_high
               eq_refl eq_refl eq_refl _)))))).
  simpl; lia.
Defined.

(** X9: in scaled mode the performance data has two entries per window, in
    the order 1, 5, 15: the raw load without thresholds, then the scaled
    load with the warning and critical thresholds; the thresholds are never
    attached to the raw load there. *)
Theorem scaled_performance_data :
  forall (double : Type) (P : Platform double) (cl : cmdline) (e : env double)
         (t : list (event double)) (g : globals double) (la : arr3 double),
    process_arguments cl static_init = (t, Return (OK, g)) ->
    getloadavg e = (3, la) ->
    any_negative la = false ->
    take_into_account_cpus g = true ->
    0 < GET_NUMBER_OF_CPUS e ->
    let scaled_la := scale la (GET_NUMBER_OF_CPUS e) in
    perf_entries (trace (main cl e))
    = [Perf_load 1 (a0 la) None;
       Perf_scaled_load 1 (a0 scaled_la) (a0 (wload g)) (a0 (cload g));
       Perf_load 5 (a1 la) None;
       Perf_scaled_load 5 (a1 scaled_la) (a1 (wload g)) (a1 (cload g));
       Perf_load 15 (a2 la) None;
       Perf_scaled_load 15 (a2 scaled_la) (a2 (wload g)) (a2 (cload g))] /\
    In (Stdout (Status_line (exit_status (main cl e)) (Some scaled_la) la))
       (trace (main cl e)).
Proof.
  intros double P cl e t g la Hpa Hla Hneg Hr Hcpu scaled_la.
  destruct (process_arguments_stage cl static_init) as [Hd _].
  rewrite Hpa in Hd. simpl in Hd.
  destruct (diagnostics_quiet t Hd) as (_ & _ & Hperf).
  rewrite (main_run cl e t OK g la Hpa ltac:(discriminate) Hla Hneg).
  assert (Hmode : scaled_mode g e = true).
  { unfold scaled_mode. rewrite Hr.
    destruct (Z.gtb_spec (GET_NUMBER_OF_CPUS e) 0); [reflexivity | lia]. }
  unfold exit_status, final. rewrite trace_pair. cbn [snd].
  unfold scaled_sample. rewrite Hmode, Hr. fold scaled_la.
  split.
  - rewrite !perf_entries_app, Hperf.
    assert (Hps : perf_entries (if n_procs_to_show g >? 0
                                then trace (print_top_consuming_processes g e)
                                else []) = []).
    { destruct (n_procs_to_show g >? 0); [|reflexivity].
      destruct (print_top_trace g e) as (out & -> & Hout).
      destruct (listing_output_quiet out Hout) as (_ & _ & Ho).
      exact Ho. }
    rewrite Hps. reflexivity.
  - rewrite !in_app_iff. right. right. right. left. now left.
Qed.

Lemma scaled_performance_data_witness :
  perf_entries (trace (main MoreSamples.cl_r_w1_c2
                            (Samples.env_load Samples.la_high (0, []))))
  = [Perf_load 1 (5 # 2)%Q None;
     Perf_scaled_load 1 (5 # 8)%Q 1%Q 2%Q;
     Perf_load 5 2%Q None;
     Perf_scaled_load 5 (2 # 4)%Q 1%Q 2%Q;
     Perf_load 15 (3 # 2)%Q None;
     Perf_scaled_load 15 (3 # 8)%Q 1%Q 2%Q].
Proof.
  refine (proj1 (scaled_performance_data
                   Q QPlatform MoreSamples.cl_r_w1_c2
                   (Samples.env_load Samples.la_high (0, []))
                   [] MoreSamples.g_r_w1_c2 Samples.la_high
                   eq_refl eq_refl eq_refl eq_refl _)).
  simpl; lia.
Defined.

(** X10: the options -h and -V, and an option that [getopt_long] does not
    know, end the run at once with exit UNKNOWN: the options after them are
    not looked at, the thresholds are not validated and the load is not
    read. *)
Theorem help_version_unknown_option_end_the_run :
  forall (double : Type) (P : Platform double) (cl : cmdline) (e : env double)
         (before after : list (ascii * string)) (c : ascii) (optarg : string)
         (t : list (event double)) (g : globals double),
    2 <= argc cl ->
    getopt_long cl = (before ++ (c, optarg) :: after)%list ->
    process_options before static_init = (t, Return g) ->
    c = "h"%char \/ c = "V"%char \/ c = "?"%char ->
    main cl e =
    ((t ++ [Stdout (if Ascii.eqb c "h" then Help
                    else if Ascii.eqb c "V" then Revision else Usage5)])%list,
     Exit STATE_UNKNOWN) /\
    calls (trace (main cl e)) = [].
Proof.
  intros double P cl e before after c optarg t g Hargc Hopts Hbefore Hc.
  assert (Hpa : process_arguments cl static_init =
                ((t ++ [Stdout (if Ascii.eqb c "h" then Help
                                else if Ascii.eqb c "V" then Revision else Usage5)])%list,
                 Exit STATE_UNKNOWN)).
  { unfold process_arguments.
    destruct (Z.ltb_spec (argc cl) 2); [lia|].
    rewrite Hopts, process_options_app, Hbefore, bind_return.
    destruct Hc as [-> | [-> | ->]]; reflexivity. }
  destruct (process_arguments_stage cl static_init) as [Hd _].
  rewrite Hpa in Hd. simpl in Hd.
  unfold main. rewrite Hpa. split; [reflexivity|].
  cbn [bind trace fst].
  now destruct (diagnostics_quiet _ Hd) as (_ & Hcalls & _).
Qed.

Lemma help_version_unknown_option_end_the_run_witness :
  main MoreSamples.cl_r_h (Samples.env_load Samples.la_high (0, []))
  = ([Stdout Help], Exit STATE_UNKNOWN).
Proof.
  refine (proj1 (help_version_unknown_option_end_the_run
                   Q QPlatform MoreSamples.cl_r_h
                   (Samples.env_load Samples.la_high (0, []))
                   [("r"%char, "")] [("w"%char, "1")] "h"%char "" []
                   (set_take_into_account_cpus static_init true)
                   _ eq_refl eq_refl _)).
  - simpl; lia.
  - now left.
Defined.

(** ** ProcessRanker, continued *)

Section MoreRankingFacts.
Context {double : Type} `{!Platform double}.

Lemma cmpstringp_le_0 (a b : string) :
  cmpstringp a b <= 0 <-> cpu_not_below a b.
Proof.
  unfold cmpstringp, cpu_not_below.
  destruct (d_lt (sscanf_procpcpu a) (sscanf_procpcpu b)); split;
    intros; (lia || discriminate || reflexivity).
Qed.

Lemma StronglySorted_split {A} (R : A -> A -> Prop) (k : nat) (l : list A) :
  StronglySorted R l ->
  StronglySorted R (firstn k l) /\
  (forall a b, In a (firstn k l) -> In b (skipn k l) -> R a b).
Proof.
  revert k; induction l as [|x l IH]; intros k Hs.
  - rewrite firstn_nil, skipn_nil. split; [constructor | intros a b []].
  - destruct k as [|k]; [split; [constructor | intros a b []]|].
    apply StronglySorted_inv in Hs as [Hl Hx].
    destruct (IH k Hl) as [Hf Hout]. simpl.
    rewrite Forall_forall in Hx.
    split.
    + constructor; [exact Hf|]. apply Forall_forall. intros y Hy.
      apply Hx. rewrite <- (firstn_skipn k l). apply in_or_app. now left.
    + intros a b [<-|Ha] Hb.
      * apply Hx. rewrite <- (firstn_skipn k l). apply in_or_app. now right.
      * now apply Hout.
Qed.
End MoreRankingFacts.

(** X11: with the CPU column, and a [qsort] that orders by [cmpstringp],
    the rows printed after the header are the top consumers: they come in
    an order in which no row uses less CPU than a later one, and no printed
    row uses less CPU than a row of the listing that is left out. *)
Theorem ranking_prints_top_consumers :
  forall (double : Type) (P : Platform double)
         (QP : QsortPermutes) (QS : QsortSorts)
         (g : globals double) (e : env double)
         (header : string) (rows : list string),
    PS_USES_PROCPCPU = true ->
    np_runcmd e = (0, header :: rows) ->
    rows <> [] ->
    0 < n_procs_to_show g < INT_MAX ->
    exists top left_out,
      rows_printed (trace (print_top_consuming_processes g e)) = header :: top /\
      Permutation (top ++ left_out) rows /\
      List.length top = Nat.min (List.length rows) (Z.to_nat (n_procs_to_show g)) /\
      StronglySorted cpu_not_below top /\
      (forall a b, In a top -> In b left_out -> cpu_not_below a b).
Proof.
  intros double P QP QS g e header rows Hflag Hrun Hrows Hn.
  assert (Hlen : (2 <= List.length (header :: rows))%nat)
    by (destruct rows; [contradiction | simpl; lia]).
  rewrite (print_top_run g e (header :: rows) Hrun Hlen);
    [ | unfold INT_MAX in *; lia | left; lia ].
  rewrite trace_pair.
  change (rows_printed (Call_np_runcmd :: ?l)) with (rows_printed l).
  rewrite rows_printed_rows.
  unfold ranked, sort_rows. rewrite Hflag.
  replace (Nat.min (List.length (header :: rows)) (Z.to_nat (n_procs_to_show g + 1)))
    with (S (Nat.min (List.length rows) (Z.to_nat (n_procs_to_show g))))
    by (simpl List.length; lia).
  set (k := Z.to_nat (n_procs_to_show g)).
  rewrite firstn_cons.
  set (sorted := qsort cmpstringp rows).
  assert (Hperm : Permutation sorted rows) by apply qsort_perm.
  assert (Hsorted : StronglySorted cpu_not_below sorted).
  { pose proof (qsort_sorted rows) as Hs. fold sorted in Hs.
    clear -Hs. induction Hs as [|a l Hl IH Ha]; constructor; [exact IH|].
    rewrite Forall_forall in *. intros b Hb. apply cmpstringp_le_0. now apply Ha. }
  destruct (StronglySorted_split cpu_not_below (Nat.min (List.length rows) k)
                                 sorted Hsorted) as [Htop Hout].
  exists (firstn (Nat.min (List.length rows) k) sorted),
         (skipn (Nat.min (List.length rows) k) sorted).
  split; [reflexivity|].
  split; [now rewrite firstn_skipn|].
  split; [rewrite length_firstn, (Permutation_length Hperm); lia|].
  split; [exact Htop | exact Hout].
Qed.

(** The insertion sort of the rational platform orders by [cmpstringp]. *)
Lemma Q_cmpstringp_le_0 (a b : string) :
  cmpstringp a b <= 0 <->
  (QModel.sscanf_procpcpu b <= QModel.sscanf_procpcpu a)%Q.
Proof.
  unfold cmpstringp. simpl.
  destruct (QModel.d_lt (QModel.sscanf_procpcpu a) (QModel.sscanf_procpcpu b)) eqn:E.
  - apply Q_d_lt_iff in E. split; [lia|]. intros Hle.
    exfalso. exact (Qlt_not_le _ _ E Hle).
  - split; [intros _|lia].
    apply Qnot_lt_le. intros Hlt. apply Q_d_lt_iff in Hlt. congruence.
Qed.

Lemma Q_insert_sorted (x : string) (l : list string) :
  StronglySorted (fun a b => cmpstringp a b <= 0) l ->
  StronglySorted (fun a b => cmpstringp a b <= 0) (QModel.insert cmpstringp x l).
Proof.
  induction 1 as [|y l Hl IH Hy]; simpl; [repeat constructor|].
  destruct (Z.leb_spec (cmpstringp x y) 0) as [Hxy|Hxy].
  - constructor; [now constructor|].
    constructor; [exact Hxy|].
    rewrite Forall_forall in *. intros z Hz. specialize (Hy z Hz).
    rewrite Q_cmpstringp_le_0 in *. exact (Qle_trans _ _ _ Hy Hxy).
  - constructor; [exact IH|].
    rewrite Forall_forall in *. intros z Hz.
    apply (Permutation_in _ (Q_insert_perm cmpstringp x l)) in Hz.
    destruct Hz as [<-|Hz]; [|now apply Hy].
    apply Q_cmpstringp_le_0.
    assert (Hn : ~ (QModel.sscanf_procpcpu y <= QModel.sscanf_procpcpu x)%Q)
      by (rewrite <- Q_cmpstringp_le_0; lia).
    apply Qlt_le_weak, Qnot_le_lt, Hn.
Qed.

#[export] Instance QQsortSorts : QsortSorts (double := Q).
Proof.
  intros rows. simpl. induction rows as [|x rows IH]; simpl; [constructor|].
  now apply Q_insert_sorted.
Qed.

Lemma ranking_prints_top_consumers_witness :
  exists top left_out,
    rows_printed
      (trace (print_top_consuming_processes
                Samples.g_w1_c2_n3
                (Samples.env_load Samples.la_high (0, Samples.listing))))
    = "UID PID PPID VSZ RSS %CPU STAT COMMAND" :: top /\
    Permutation (top ++ left_out) (tl Samples.listing) /\
    List.length top = 3%nat /\
    StronglySorted cpu_not_below top /\
    (forall a b, In a top -> In b left_out -> cpu_not_below a b).
Proof.
  refine (ranking_prints_top_consumers
            Q QPlatform QQsortPermutes QQsortSorts Samples.g_w1_c2_n3
            (Samples.env_load Samples.la_high (0, Samples.listing))
            "UID PID PPID VSZ RSS %CPU STAT COMMAND" (tl Samples.listing)
            eq_refl eq_refl _ _).
  - discriminate.
  - unfold INT_MAX; simpl; lia.
Defined.

(** X12: a field that [strtod] does not convert ends the parse, and the
    windows from that field on hold the value that the failed conversion
    returned (0.0 with the C library), not the last parsed value: after one
    parsed field the last two windows, after two parsed fields the last
    window. *)
Theorem get_threshold_unparsable_field :
  forall (double : Type) (P : Platform double) (x y rest : string)
         (vx vy v0 : double) (th : arr3 double),
    number_field x vx -> number_field y vy ->
    rest <> "" -> strtod rest = (v0, O) ->
    get_threshold (x ++ "," ++ rest) th = ret (Arr3 vx v0 v0) /\
    get_threshold (x ++ "," ++ y ++ "," ++ rest) th = ret (Arr3 vx vy v0).
Proof.
  intros double P x y rest vx vy v0 th Hx Hy Hrest E0.
  pose proof (number_field_comma _ _ rest Hx) as Ex1.
  pose proof (number_field_comma _ _ (y ++ String "," rest) Hx) as Ex2.
  pose proof (number_field_comma _ _ rest Hy) as Ey.
  destruct Hx as [Hxpos _], Hy as [Hypos _].
  assert (0 < String.length rest)%nat
    by (destruct rest; [contradiction | simpl; lia]).
  split; unfold get_threshold; simpl append.
  - rewrite (scan_next_field 2 0 _ _ 0 false th vx (String.length x));
      [ | exact Ex1 | lia | rewrite length_append; simpl; lia ].
    rewrite (scan_no_conversion 1 1 _ _ _ true _ v0); [reflexivity|].
    simpl Nat.add. rewrite string_from_past_comma. exact E0.
  - rewrite (scan_next_field 2 0 _ _ 0 false th vx (String.length x));
      [ | exact Ex2 | lia
        | rewrite length_append; simpl; rewrite length_append; simpl; lia ].
    simpl Nat.add.
    rewrite (scan_next_field 1 1 _ _ _ true _ vy (String.length y));
      [ | rewrite string_from_past_comma; exact Ey | lia
        | rewrite length_append; simpl; rewrite length_append; simpl; lia ].
    rewrite (scan_no_conversion 0 2 _ _ _ true _ v0); [reflexivity|].
    replace (String.length x + 1 + String.length y + 1)%nat
      with ((String.length x + 1) + (String.length y + 1))%nat by lia.
    rewrite (string_from_add (String.length x + 1) (String.length y + 1)).
    rewrite !string_from_past_comma. exact E0.
Qed.

Lemma get_threshold_unparsable_field_witness :
  let th := Arr3 7%Q 8%Q 9%Q in
  get_threshold "1,x" th = ret (Arr3 1%Q 0%Q 0%Q) /\
  get_threshold "1,2.5,x" th = ret (Arr3 1%Q (5 # 2)%Q 0%Q).
Proof.
  intros th.
  refine (get_threshold_unparsable_field
            Q QPlatform "1" "2.5" "x" 1%Q (5 # 2)%Q 0%Q th
            Q_number_field_1 Q_number_field_2_5 _ eq_refl).
  discriminate.
Defined.

(** X13: a run without any argument ends with exit UNKNOWN and the message
    that the arguments could not be parsed: no option is processed, the
    default thresholds are not validated and the load is not read. *)
Theorem no_argument_is_unknown :
  forall (double : Type) (P : Platform double) (cl : cmdline) (e : env double),
    argc cl < 2 ->
    process_arguments cl static_init = ([], Return (ERROR, static_init)) /\
    main cl e =
    ([Stdout (Usage4 "Could not parse arguments")], Exit STATE_UNKNOWN).
Proof.
  intros double P cl e Hargc.
  assert (Hpa : process_arguments cl static_init
                = ([], Return (ERROR, static_init))).
  { unfold process_arguments.
    destruct (Z.ltb_spec (argc cl) 2); [reflexivity | lia]. }
  split; [exact Hpa|]. unfold main. rewrite Hpa. reflexivity.
Qed.

Lemma no_argument_is_unknown_witness :
  main (Cmdline 1 ["check_load"] [] 1) (Samples.env_load Samples.la_high (0, []))
  = ([Stdout (Usage4 "Could not parse arguments")], Exit STATE_UNKNOWN).
Proof.
  refine (proj2 (no_argument_is_unknown
                   Q QPlatform (Cmdline 1 ["check_load"] [] 1)
                   (Samples.env_load Samples.la_high (0, [])) _)).
  simpl; lia.
Defined.

(** X14: when [getloadavg] does not deliver its three samples the run ends
    with exit UNKNOWN and prints nothing for it: after the argument stage
    the trace holds the call alone, no error message, no status line. *)
Theorem incomplete_load_is_silent_unknown :
  forall (double : Type) (P : Platform double) (cl : cmdline) (e : env double)
         (t : list (event double)) (g : globals double),
    process_arguments cl static_init = (t, Return (OK, g)) ->
    fst (getloadavg e) <> 3 ->
    main cl e = ((t ++ [Call_getloadavg])%list, Return STATE_UNKNOWN) /\
    forallb is_diagnostic t = true.
Proof.
  intros double P cl e t g Hpa Hres.
  destruct (process_arguments_stage cl static_init) as [Hd _].
  rewrite Hpa in Hd. split; [|exact Hd].
  destruct (main_is_run cl e) as
    [cl e t' code Hpa' | cl e t' g' Hpa' | cl e t' g' res la Hpa' Hla _
     | cl e t' g' la Hpa' Hla _ | cl e t' g' la Hpa' Hla _];
    rewrite Hpa in Hpa'; try discriminate;
    injection Hpa' as <- <-; try reflexivity;
    rewrite Hla in Hres; now elim Hres.
Qed.

Lemma incomplete_load_is_silent_unknown_witness :
  main Samples.cl_w1_c2 (Env (-1, Arr3 0%Q 0%Q 0%Q) 4 (0, []))
  = ([Call_getloadavg], Return STATE_UNKNOWN).
Proof.
  refine (proj1 (incomplete_load_is_silent_unknown
                   Q QPlatform Samples.cl_w1_c2
                   (Env (-1, Arr3 0%Q 0%Q 0%Q) 4 (0, []))
                   [] Samples.g_w1_c2 eq_refl _)).
  simpl; lia.
Defined.

(** X15: the configuration that the load check works with has passed
    validation: when the argument stage hands over, no threshold is
    negative and no warning threshold is above its critical threshold, in
    all three windows; and the run has printed nothing up to there. *)
Theorem accepted_configuration_is_valid :
  forall (double : Type) (P : Platform double) (cl : cmdline)
         (t : list (event double)) (g : globals double),
    process_arguments cl static_init = (t, Return (OK, g)) ->
    t = [] /\
    forall i, (i < 3)%nat ->
              d_lt (aget (cload g) i) d_zero = false /\
              d_lt (aget (wload g) i) d_zero = false /\
              d_gt (aget (wload g) i) (aget (cload g) i) = false.
Proof.
  intros double P cl t g Hpa.
  assert (Hgoal : t = [] /\ final (validate_arguments g) = Return OK).
  { unfold process_arguments in Hpa.
    destruct (argc cl <? 2); [discriminate|].
    apply bind_inv_return in Hpa as (t1 & g1 & t2 & Eopts & E & ->).
    apply process_options_return_silent in Eopts as ->.
    destruct (optind cl =? argc cl).
    - apply validated_return in E as (-> & -> & Hv). now split.
    - apply bind_inv_return in E as (t3 & g2 & t4 & Epos & E & ->).
      apply validated_return in E as (-> & -> & Hv).
      split; [|exact Hv].
      destruct (optind cl - argc cl =? 2); [|destruct (optind cl - argc cl =? 1)].
      + apply bind_inv_return in Epos as (t5 & w & t6 & Ew & Ec & ->).
        apply bind_inv_return in Ec as (t7 & cr & t8 & Ec & Er & ->).
        unfold ret in Er. injection Er as <- _.
        destruct (get_threshold_cases (arg_at cl (optind cl)) (wload g1))
          as [[th1 H1]|H1]; rewrite H1 in Ew; [|discriminate].
        destruct (get_threshold_cases (arg_at cl (optind cl + 1))
                                      (cload (set_wload g1 w)))
          as [[th2 H2]|H2]; rewrite H2 in Ec; [|discriminate].
        injection Ew as <- _. now injection Ec as <- _.
      + apply bind_inv_return in Epos as (t5 & cr & t6 & Ec & Er & ->).
        unfold ret in Er. injection Er as <- _.
        destruct (get_threshold_cases (arg_at cl (optind cl)) (cload g1))
          as [[th2 H2]|H2]; rewrite H2 in Ec; [|discriminate].
        now injection Ec as <- _.
      + now injection Epos as <- _. }
  destruct Hgoal as [Ht Hv]. split; [exact Ht|].
  intros i Hi. pose proof (proj1 (validate_arguments_accepts g) Hv i Hi) as Hrej.
  unfold rejected in Hrej.
  apply orb_false_iff in Hrej as [Hrej Hgt].
  apply orb_false_iff in Hrej as [Hc Hw].
  repeat split; assumption.
Qed.

Lemma accepted_configuration_is_valid_witness :
  d_gt (aget (wload Samples.g_w1_c2) 0) (aget (cload Samples.g_w1_c2) 0) = false.
Proof.
  exact (proj2 (proj2 (proj2 (accepted_configuration_is_valid
                                Q QPlatform Samples.cl_w1_c2 [] Samples.g_w1_c2
                                eq_refl) 0%nat ltac:(lia)))).
Defined.
